(** * Verification of the library-catalog Django projects

    Shallow embedding of the parts of the Django / Django REST framework
    projects of this repository that carry original conditional logic:

    - [Api]: advanced-api-project/api (models.py, serializers.py, views.py,
      urls.py): the [Book] model with its year validation, the
      [BookSerializer], the [IsAuthenticatedForWrite] permission and the four
      generic views, dispatched the way APIView.dispatch does it (content
      negotiation over DRF's default renderers, authentication, permissions,
      handler) and listed through any of DRF's pagination classes.
    - [Relationship]: relationship_app (models.py, signals.py): the
      many-to-many [Library.books] association, the [CustomUserManager] and
      the profile-creating post_save receiver.
    - [Bookshelf]: bookshelf/views.py: the searchable [book_list] view.

    Integers of Python are [Z]; database tables are lists of rows in
    insertion order; Python exceptions are the [Err] side of a result. *)

From Stdlib Require Import List String Ascii ZArith Bool Lia Arith.
From Stdlib Require Import Permutation.
Import ListNotations.
Open Scope string_scope.
Open Scope Z_scope.
Open Scope list_scope.

(** A result of Python code that may raise. *)
Inductive result (E A : Type) : Type :=
| Ok : A -> result E A
| Err : E -> result E A.
Arguments Ok {E A} _.
Arguments Err {E A} _.

(** A validation error: a dict from field name to messages,
    as [ValidationError({'publication_year': ...})] builds it. *)
Definition error_dict := list (string * string).

Definition error_keys (e : error_dict) : list string := map fst e.

Module Api.

(** ** Text helpers: Python's [str.strip()] and [int(str)] on ASCII text *)

Definition is_digit (c : ascii) : bool :=
  (48 <=? Z.of_nat (nat_of_ascii c)) && (Z.of_nat (nat_of_ascii c) <=? 57).

Definition is_space (c : ascii) : bool :=
  let n := nat_of_ascii c in
  (Nat.leb 9 n && Nat.leb n 13) || (Nat.leb 28 n && Nat.leb n 32).

Fixpoint lstrip (s : string) : string :=
  match s with
  | String c rest => if is_space c then lstrip rest else s
  | EmptyString => EmptyString
  end.

Fixpoint rev_string (s : string) (acc : string) : string :=
  match s with
  | EmptyString => acc
  | String c rest => rev_string rest (String c acc)
  end.

(** [lstrip] read on the list of characters. *)
Fixpoint drop_spaces (l : list ascii) : list ascii :=
  match l with
  | c :: rest => if is_space c then drop_spaces rest else l
  | [] => []
  end.

(** Neither end of the text is whitespace: what [str.strip()] leaves. *)
Definition trimmed (l : list ascii) : Prop :=
  (forall c r, l = c :: r -> is_space c = false) /\
  (forall c r, rev l = c :: r -> is_space c = false).

(** [str.strip()] with no argument, on ASCII text. *)
Definition py_strip (s : string) : string :=
  rev_string (lstrip (rev_string (lstrip s) "")) "".

(** The digits of an [int] literal: single underscores may separate two
    digits ([int('1_0') == 10]); a leading, trailing or doubled
    underscore is a [ValueError]. [prev_digit] says the character before
    was a digit. *)
Fixpoint parse_digits_us (s : string) (prev_digit : bool) (acc : Z) : option Z :=
  match s with
  | EmptyString => if prev_digit then Some acc else None
  | String c rest =>
      if is_digit c
      then parse_digits_us rest true (acc * 10 + (Z.of_nat (nat_of_ascii c) - 48))
      else if Ascii.eqb c "_"%char && prev_digit
      then match rest with
           | String d _ => if is_digit d then parse_digits_us rest false acc else None
           | EmptyString => None
           end
      else None
  end.

(** Python's [int(s)] on a decimal literal: surrounding whitespace, an
    optional sign, digits with [_] separators; [None] is the
    [ValueError]. *)
Definition py_int (s : string) : option Z :=
  match py_strip s with
  | String "-" rest => option_map Z.opp (parse_digits_us rest false 0)
  | String "+" rest => parse_digits_us rest false 0
  | t => parse_digits_us t false 0
  end.

(** ** api/models.py *)

(** [class Book(models.Model)]: [title], [publication_year], and the
    foreign key [author] (stored as [author_id]). [pk] is [None] before
    the first save; an instance with a primary key is one loaded from
    the table ([_state.adding] is false), for which [validate_unique]
    skips the primary key. *)
Record Book := mkBook {
  pk : option nat;
  title : string;
  publication_year : Z;
  author_id : nat
}.

Record Author := mkAuthor {
  author_pk : nat;
  name : string
}.

Definition future_year_msg : string :=
  "Publication year cannot be in the future.".

(** [Book.clean]: [current_year = date.today().year] is the argument
    [current_year]. *)
Definition Book_clean (current_year : Z) (b : Book) : error_dict :=
  if publication_year b >? current_year
  then [("publication_year", future_year_msg)]
  else [].

(** [connection.ops.integer_field_range] for [IntegerField] and
    [AutoField] on the sqlite3 backend (the database of a new Django
    project): the 64-bit range. [IntegerField.validators] adds a
    [MinValueValidator] and a [MaxValueValidator] for it. *)
Definition int_min : Z := -9223372036854775808.
Definition int_max : Z := 9223372036854775807.

(** The messages of those two validators for a value. *)
Definition range_errors (v : Z) : list string :=
  (if v <? int_min
   then ["Ensure this value is greater than or equal to -9223372036854775808."] else [])
  ++ (if int_max <? v
      then ["Ensure this value is less than or equal to 9223372036854775807."] else []).

(** [Model.clean_fields] for the fields of [Book], in declaration order:
    the [id] [AutoField] (skipped while [None], as [blank=True]; its range
    validators otherwise), [title = CharField(max_length=200)] (required,
    not blank), [publication_year = IntegerField()] with its range
    validators, and the [author] foreign key, which must reference an
    existing [Author]. *)
Definition Book_clean_fields (authors : list Author) (b : Book) : error_dict :=
  (match pk b with
   | Some k => map (fun m => ("id", m)) (range_errors (Z.of_nat k))
   | None => []
   end)
  ++ (if String.eqb (title b) "" then [("title", "This field cannot be blank.")]
      else if Nat.ltb 200 (String.length (title b))
      then [("title", "Ensure this value has at most 200 characters.")]
      else [])
  ++ map (fun m => ("publication_year", m)) (range_errors (publication_year b))
  ++ (if existsb (fun a => Nat.eqb (author_pk a) (author_id b)) authors
      then [] else [("author", "Author instance does not exist.")]).

(** [Model.full_clean]: [clean_fields], then [clean]; the collected errors
    are raised together. *)
Definition Book_full_clean (current_year : Z) (authors : list Author) (b : Book)
  : error_dict :=
  Book_clean_fields authors b ++ Book_clean current_year b.

(** The tables of the api app. [book_seq] is the [sqlite_sequence] entry
    of the book table: the largest key the table ever held, which an
    [AUTOINCREMENT] key never goes back below. *)
Record DB := mkDB {
  authors : list Author;
  books : list Book;
  book_seq : nat
}.

Definition max_book_pk (bs : list Book) : nat :=
  fold_right (fun b m => match pk b with Some k => Nat.max k m | None => m end)
    0%nat bs.

(** [Model.save_base] after validation: an UPDATE of the row with the same
    primary key when there is one, an INSERT otherwise. The INSERT of an
    instance without key takes one more than the larger of the sequence
    and the largest key present ([integer PRIMARY KEY AUTOINCREMENT]), so
    the key of a deleted row is never given again; the sequence follows
    the largest key inserted. *)
Definition save_row (bs : list Book) (seq : nat) (b : Book) : list Book * nat * Book :=
  match pk b with
  | Some k =>
      if existsb (fun r => match pk r with Some k' => Nat.eqb k k' | None => false end) bs
      then (map (fun r => match pk r with
                          | Some k' => if Nat.eqb k k' then b else r
                          | None => r end) bs, seq, b)
      else (bs ++ [b], Nat.max seq k, b)
  | None =>
      let k := S (Nat.max seq (max_book_pk bs)) in
      let b' := mkBook (Some k) (title b) (publication_year b) (author_id b) in
      (bs ++ [b'], k, b')
  end.

(** [Book.save]: [self.full_clean()], then [super().save()]. *)
Definition Book_save (current_year : Z) (db : DB) (b : Book)
  : result error_dict (DB * Book) :=
  match Book_full_clean current_year (authors db) b with
  | [] => let '(bs', seq', b') := save_row (books db) (book_seq db) b in
          Ok (mkDB (authors db) bs' seq', b')
  | errs => Err errs
  end.

(** ** api/serializers.py *)

(** Python's [str(n)] for an [int], used in the f-string of
    [validate_publication_year]. *)
Fixpoint nat_digits (fuel n : nat) (acc : string) : string :=
  match fuel with
  | O => acc
  | S f =>
      let acc' := String (ascii_of_nat (48 + Nat.modulo n 10)) acc in
      if Nat.ltb n 10 then acc' else nat_digits f (Nat.div n 10) acc'
  end.

Definition str_of_int (z : Z) : string :=
  if z <? 0 then String.append "-" (nat_digits (S (Z.to_nat (- z))) (Z.to_nat (- z)) "")
  else nat_digits (S (Z.to_nat z)) (Z.to_nat z) "".

(** [BookSerializer.validate_publication_year]: raises
    [serializers.ValidationError] with the message, or returns [value]. *)
Definition validate_publication_year (current_year : Z) (value : Z)
  : result string Z :=
  if value >? current_year
  then Err (String.append "publication_year cannot be greater than "
              (String.append (str_of_int current_year) "."))
  else Ok value.

(** [request.data] for a [Book]: each writable field of
    [fields = "__all__"] may be missing. *)
Record BookInput := mkBookInput {
  in_title : option string;
  in_publication_year : option Z;
  in_author : option nat
}.

(** The validated data of a [BookSerializer]: the fields present. *)
Record BookData := mkBookData {
  v_title : option string;
  v_publication_year : option Z;
  v_author : option nat
}.

Definition required_msg : string := "This field is required.".

(** One field of [Serializer.to_internal_value]: a missing field is an
    error unless the serializer is [partial]; a present one runs the
    field's [run_validation] and then the [validate_<field>] method. *)
Definition run_field {A : Type} (partial : bool) (fname : string)
    (check : A -> result string A) (v : option A)
  : error_dict * option A :=
  match v with
  | None => if partial then ([], None) else ([(fname, required_msg)], None)
  | Some x => match check x with
              | Ok y => ([], Some y)
              | Err m => ([(fname, m)], None)
              end
  end.

(** The text has a NUL character. *)
Definition has_null (s : string) : bool :=
  existsb (fun c => Ascii.eqb c "000"%char) (list_ascii_of_string s).

(** The [CharField(max_length=200)] generated from the model field, with
    DRF's defaults [trim_whitespace=True] and [allow_blank=False]:
    [run_validation] fails with [blank] when the stripped text is empty;
    [to_internal_value] returns the stripped text, which then goes through
    the [MaxLengthValidator] and the [ProhibitNullCharactersValidator]
    (of the messages collected, the first is kept). *)
Definition title_field (t : string) : result string string :=
  let v := py_strip t in
  if String.eqb v "" then Err "This field may not be blank."
  else if Nat.ltb 200 (String.length v)
  then Err "Ensure this field has no more than 200 characters."
  else if has_null v then Err "Null characters are not allowed."
  else Ok v.

(** The [IntegerField] generated for [publication_year]: [ModelSerializer]
    passes the model field's range validators on as [min_value] and
    [max_value], checked by [run_validation]; the value then goes to
    [validate_publication_year]. *)
Definition year_field (current_year : Z) (y : Z) : result string Z :=
  match range_errors y with
  | m :: _ => Err m
  | [] => validate_publication_year current_year y
  end.

(** [PrimaryKeyRelatedField(queryset=Author.objects.all())]. *)
Definition author_field (authors : list Author) (k : nat) : result string nat :=
  if existsb (fun a => Nat.eqb (author_pk a) k) authors then Ok k
  else Err "Invalid pk - object does not exist.".

(** [BookSerializer.is_valid]: [to_internal_value] over the fields in
    declaration order. *)
Definition BookSerializer_validate (current_year : Z) (authors : list Author)
    (partial : bool) (d : BookInput) : result error_dict BookData :=
  let '(e1, t) := run_field partial "title" title_field (in_title d) in
  let '(e2, y) := run_field partial "publication_year"
                    (year_field current_year) (in_publication_year d) in
  let '(e3, a) := run_field partial "author" (author_field authors) (in_author d) in
  match e1 ++ e2 ++ e3 with
  | [] => Ok (mkBookData t y a)
  | errs => Err errs
  end.

(** [ModelSerializer.create]: [Book.objects.create] on the validated data,
    which calls [Book.save]. *)
Definition BookSerializer_create (current_year : Z) (db : DB) (v : BookData)
  : result error_dict (DB * Book) :=
  Book_save current_year db
    (mkBook None (match v_title v with Some t => t | None => "" end)
       (match v_publication_year v with Some y => y | None => 0 end)
       (match v_author v with Some a => a | None => 0%nat end)).

(** [ModelSerializer.update]: [setattr] for every validated field, then
    [instance.save()]. *)
Definition BookSerializer_update (current_year : Z) (db : DB) (inst : Book)
    (v : BookData) : result error_dict (DB * Book) :=
  Book_save current_year db
    (mkBook (pk inst)
       (match v_title v with Some t => t | None => title inst end)
       (match v_publication_year v with Some y => y | None => publication_year inst end)
       (match v_author v with Some a => a | None => author_id inst end)).

(** ** api/views.py *)

(** [request.user]: a user object ([AnonymousUser] has
    [is_authenticated = False]); [None] when the project sets no
    unauthenticated user. *)
Record PyUser := mkPyUser { is_authenticated : bool }.

(** The values [has_permission] can return. *)
Inductive PyValue :=
| PyBool : bool -> PyValue
| PyNone : PyValue.

(** Python truthiness of those values. *)
Definition truthy (v : PyValue) : bool :=
  match v with PyBool b => b | PyNone => false end.

(** The exception an authenticator raises while [request.user] is
    evaluated: [AuthenticationFailed] (bad credentials), or the
    [PermissionDenied] of [SessionAuthentication]'s CSRF check. *)
Inductive AuthError := AuthenticationFailed | CsrfFailed.

(** The exception the parsers raise on the first access to
    [request.data]: [ParseError] (malformed body) or
    [UnsupportedMediaType]. *)
Inductive DataError := ParseError | UnsupportedMediaType.

Record Request := mkRequest {
  method : string;                (** [request.method], upper case *)
  user : option PyUser;           (** [request.user] when no authenticator raised *)
  has_authenticators : bool;      (** [request.authenticators] non-empty *)
  authenticate_header : bool;     (** the first authenticator sends WWW-Authenticate *)
  query_params : list (string * string);
  data : BookInput;               (** [request.data] when it parses *)
  accept : list (string * string);
    (** the tokens of [get_accept_list] (the Accept header split at commas,
        ["*/*"] without one) as [_MediaType] reads them:
        [(main_type, sub_type)] *)
  auth_error : option AuthError;
  data_error : option DataError
}.

Definition read_methods : list string := ["GET"; "HEAD"; "OPTIONS"].

Definition str_in (x : string) (l : list string) : bool :=
  existsb (String.eqb x) l.

(** [IsAuthenticatedForWrite.has_permission]:
    [request.method in ('GET','HEAD','OPTIONS')] gives [True]; otherwise
    [request.user and request.user.is_authenticated], where a user object
    is truthy and [None] is returned as is. *)
Definition IsAuthenticatedForWrite_has_permission (r : Request) : PyValue :=
  if str_in (method r) read_methods then PyBool true
  else match user r with
       | None => PyNone
       | Some u => PyBool (is_authenticated u)
       end.

(** DRF's [IsAuthenticated]: [bool(request.user and request.user.is_authenticated)]. *)
Definition IsAuthenticated_has_permission (r : Request) : PyValue :=
  PyBool (match user r with None => false | Some u => is_authenticated u end).

Inductive Permission := AllowAny | IsAuthenticated | IsAuthenticatedForWrite.

Definition has_permission (p : Permission) (r : Request) : PyValue :=
  match p with
  | AllowAny => PyBool true
  | IsAuthenticated => IsAuthenticated_has_permission r
  | IsAuthenticatedForWrite => IsAuthenticatedForWrite_has_permission r
  end.

(** The four views and the routes of api/urls.py that lead to them. *)
Inductive View :=
| BookListCreateView                  (** [books/] *)
| BookDetailView (pk : nat)           (** [books/<int:pk>/] *)
| BookUpdateView (pk : nat)           (** [books/<int:pk>/update/] *)
| BookDeleteView (pk : nat).          (** [books/<int:pk>/delete/] *)

Definition permission_classes (v : View) : list Permission :=
  match v with
  | BookListCreateView => [IsAuthenticatedForWrite]
  | BookDetailView _ => [AllowAny]
  | BookUpdateView _ => [IsAuthenticated]
  | BookDeleteView _ => [IsAuthenticated]
  end.

(** The handler methods each generic view class defines; [head] is bound
    to [get] by [View.setup], [options] comes from [APIView]. *)
Definition view_methods (v : View) : list string :=
  match v with
  | BookListCreateView => ["GET"; "POST"; "HEAD"; "OPTIONS"]
  | BookDetailView _ => ["GET"; "HEAD"; "OPTIONS"]
  | BookUpdateView _ => ["PUT"; "PATCH"; "OPTIONS"]
  | BookDeleteView _ => ["DELETE"; "OPTIONS"]
  end.

(** A response: its status and the books it serializes (the [count],
    [next] and [previous] of a paginated body are left out). *)
Record Response := mkResponse {
  status : Z;
  payload : list Book
}.

(** The request's user is authenticated; DRF has a
    [successful_authenticator] exactly then. *)
Definition user_authenticated (r : Request) : bool :=
  match user r with Some u => is_authenticated u | None => false end.

(** The requester is authenticated: no authenticator raised and the
    user is authenticated. *)
Definition authenticated (r : Request) : bool :=
  match auth_error r with
  | None => user_authenticated r
  | Some _ => false
  end.

(** [APIView.check_permissions] and [permission_denied], with the status
    [handle_exception] gives: [NotAuthenticated] (no successful
    authenticator) is 401 when there is a WWW-Authenticate header and 403
    otherwise; [PermissionDenied] is 403. *)
Definition check_permissions (v : View) (r : Request) : option Z :=
  if forallb (fun p => truthy (has_permission p r)) (permission_classes v) then None
  else if has_authenticators r && negb (user_authenticated r)
  then Some (if authenticate_header r then 401 else 403)
  else Some 403.

(** [handle_exception] for an exception raised by an authenticator:
    [AuthenticationFailed] is 401 with a WWW-Authenticate header and 403
    without; the CSRF [PermissionDenied] is 403. *)
Definition auth_error_status (r : Request) (e : AuthError) : Z :=
  match e with
  | AuthenticationFailed => if authenticate_header r then 401 else 403
  | CsrfFailed => 403
  end.

Definition data_error_status (e : DataError) : Z :=
  match e with ParseError => 400 | UnsupportedMediaType => 415 end.

(** [QueryDict.get(key, default)]: the last value given for [key]. *)
Fixpoint qd_get (key : string) (default : string) (q : list (string * string)) : string :=
  match q with
  | [] => default
  | (k, v) :: rest => let d := if String.eqb k key then v else default in
                      qd_get key d rest
  end.

(** ** Content negotiation: DRF's [DefaultContentNegotiation] *)

Record Renderer := mkRenderer {
  renderer_media_type : string * string;
  renderer_format : string
}.

(** [DEFAULT_RENDERER_CLASSES]: [JSONRenderer] and [BrowsableAPIRenderer]. *)
Definition renderer_classes : list Renderer :=
  [mkRenderer ("application", "json") "json"; mkRenderer ("text", "html") "api"].

(** [media_type_matches(renderer.media_type, token)], i.e.
    [_MediaType.match]: the renderer's media type has no parameters, so
    only the sub type and the main type are compared, ["*"] matching
    anything. *)
Definition media_type_matches (lhs rhs : string * string) : bool :=
  let '(lm, ls) := lhs in
  let '(rm, rs) := rhs in
  (String.eqb ls "*" || String.eqb rs "*" || String.eqb rs ls) &&
  (String.eqb lm "*" || String.eqb rm "*" || String.eqb rm lm).

(** [APIView.perform_content_negotiation] through [select_renderer]: a
    non-empty [?format=] keeps the renderers of that format and raises
    [Http404] when none is left; then some accepted media range must match
    a remaining renderer, else [NotAcceptable] (406). The result is the
    status of the exception raised, if any. *)
Definition content_negotiation (r : Request) : option Z :=
  let fmt := qd_get "format" "" (query_params r) in
  let rs := if String.eqb fmt "" then renderer_classes
            else filter (fun x => String.eqb (renderer_format x) fmt) renderer_classes in
  match rs with
  | [] => Some 404
  | _ => if existsb (fun tok => existsb (fun x => media_type_matches (renderer_media_type x) tok) rs)
                    (accept r)
         then None else Some 406
  end.

(** ** Pagination *)

(** [DEFAULT_PAGINATION_CLASS] with [PAGE_SIZE] (the settings module is
    not part of the repository): none, DRF's [PageNumberPagination]
    ([page_size = PAGE_SIZE]) or [LimitOffsetPagination]
    ([default_limit = PAGE_SIZE]). *)
Inductive Pagination :=
| NoPagination
| PageNumberPagination (page_size : option nat)
| LimitOffsetPagination (default_limit : option nat).

(** The result of [paginate_queryset]: [None] (no pagination), a page,
    or the [NotFound] raised for an invalid page. *)
Inductive PageResult :=
| NotPaginated
| Page (p : list Book)
| InvalidPage.

(** Django's [Paginator.num_pages] with [orphans=0] and
    [allow_empty_first_page=True]: [ceil(max(1, count) / per_page)]. *)
Definition num_pages (count per_page : nat) : nat :=
  Nat.div (Nat.max 1 count + per_page - 1) per_page.

(** [PageNumberPagination.paginate_queryset] for a positive page size:
    [query_params.get('page') or 1], ['last'] for the last page, then
    [Paginator.page]: [validate_number] ([int()] of it, at least 1, at
    most [num_pages], else [InvalidPage]) and the slice
    [[(number-1)*per_page : number*per_page]]. *)
Definition page_number_paginate (size : nat) (r : Request) (bs : list Book) : PageResult :=
  let np := num_pages (List.length bs) size in
  let raw := qd_get "page" "" (query_params r) in
  let number := if String.eqb raw "" then Some 1
                else if String.eqb raw "last" then Some (Z.of_nat np)
                else py_int raw in
  match number with
  | None => InvalidPage
  | Some k => if (k <? 1) || (Z.of_nat np <? k) then InvalidPage
              else Page (firstn size (skipn (Z.to_nat (k - 1) * size) bs))
  end.

(** [pagination._positive_int(integer_string, strict)]: [int()], negative
    (or, when [strict], zero) is a [ValueError]. *)
Definition positive_int (s : string) (strict : bool) : option nat :=
  match py_int s with
  | Some z => if (z <? 0) || (strict && (z =? 0)) then None else Some (Z.to_nat z)
  | None => None
  end.

(** [LimitOffsetPagination.paginate_queryset]: the [limit] parameter when
    it is a positive integer, else [default_limit]; no limit means no
    pagination. The [offset] parameter when it is a non-negative integer,
    else 0; the page is [queryset[offset:offset+limit]]. A missing
    parameter ([KeyError]) and an empty one ([ValueError]) are alike. *)
Definition limit_offset_paginate (default_limit : option nat) (r : Request)
    (bs : list Book) : PageResult :=
  let limit := match positive_int (qd_get "limit" "" (query_params r)) true with
               | Some l => Some l
               | None => default_limit
               end in
  match limit with
  | None => NotPaginated
  | Some l =>
      let offset := match positive_int (qd_get "offset" "" (query_params r)) false with
                    | Some o => o
                    | None => 0%nat
                    end in
      Page (firstn l (skipn offset bs))
  end.

(** [GenericAPIView.paginate_queryset]; [PageNumberPagination] with no or
    a zero page size does not paginate ([if not page_size: return None]). *)
Definition paginate_queryset (pg : Pagination) (r : Request) (bs : list Book) : PageResult :=
  match pg with
  | NoPagination => NotPaginated
  | PageNumberPagination (Some (S _ as n)) => page_number_paginate n r bs
  | PageNumberPagination _ => NotPaginated
  | LimitOffsetPagination d => limit_offset_paginate d r bs
  end.

(** [ListModelMixin.list] once the queryset is built: the page in a 200
    response, the whole queryset when nothing paginates, 404 for an
    invalid page. *)
Definition list_response (pg : Pagination) (r : Request) (bs : list Book) : Response :=
  match paginate_queryset pg r bs with
  | NotPaginated => mkResponse 200 bs
  | Page p => mkResponse 200 p
  | InvalidPage => mkResponse 404 []
  end.

(** ** The handlers *)

(** [BookListCreateView.get_queryset]: [Book.objects.all()], filtered by
    [author_id] when that query parameter is a non-empty string;
    [None] is the [ValueError] of a non-numeric [author_id]. *)
Definition get_queryset (db : DB) (r : Request) : option (list Book) :=
  let a := qd_get "author_id" "" (query_params r) in
  if String.eqb a "" then Some (books db)
  else match py_int a with
       | Some n => Some (filter (fun b => Z.eqb (Z.of_nat (author_id b)) n) (books db))
       | None => None
       end.

(** [GenericAPIView.get_object]: the row with that primary key, or [Http404]. *)
Definition get_object (db : DB) (k : nat) : option Book :=
  find (fun b => match pk b with Some k' => Nat.eqb k k' | None => false end) (books db).

(** The rows left by [BookDeleteView] deleting primary key [k]. *)
Definition delete_pk (k : nat) (bs : list Book) : list Book :=
  filter (fun b => match pk b with Some k' => negb (Nat.eqb k k') | None => true end) bs.

Definition serializer_error_status : Z := 400.

(** The handlers of the views, after [initial]. [request.data] is first
    read when the serializer is built (after [get_object] for an update).
    Errors escaping [perform_create] / [perform_update] (a Django
    [ValidationError] raised by [Book.save]) are a 500. *)
Definition handle (pg : Pagination) (current_year : Z) (v : View) (r : Request) (db : DB)
  : Response * DB :=
  match v, method r with
  | _, "OPTIONS" => (mkResponse 200 [], db)
  | BookListCreateView, ("GET" | "HEAD") =>
      match get_queryset db r with
      | Some bs => (list_response pg r bs, db)
      | None => (mkResponse 500 [], db)
      end
  | BookListCreateView, "POST" =>
      match data_error r with
      | Some e => (mkResponse (data_error_status e) [], db)
      | None =>
          match BookSerializer_validate current_year (authors db) false (data r) with
          | Err _ => (mkResponse serializer_error_status [], db)
          | Ok vd => match BookSerializer_create current_year db vd with
                     | Ok (db', b) => (mkResponse 201 [b], db')
                     | Err _ => (mkResponse 500 [], db)
                     end
          end
      end
  | BookDetailView k, ("GET" | "HEAD") =>
      match get_object db k with
      | Some b => (mkResponse 200 [b], db)
      | None => (mkResponse 404 [], db)
      end
  | BookUpdateView k, (("PUT" | "PATCH") as m) =>
      match get_object db k with
      | None => (mkResponse 404 [], db)
      | Some inst =>
          match data_error r with
          | Some e => (mkResponse (data_error_status e) [], db)
          | None =>
              match BookSerializer_validate current_year (authors db)
                      (String.eqb m "PATCH") (data r) with
              | Err _ => (mkResponse serializer_error_status [], db)
              | Ok vd => match BookSerializer_update current_year db inst vd with
                         | Ok (db', b) => (mkResponse 200 [b], db')
                         | Err _ => (mkResponse 500 [], db)
                         end
              end
          end
      end
  | BookDeleteView k, "DELETE" =>
      match get_object db k with
      | None => (mkResponse 404 [], db)
      | Some _ => (mkResponse 204 [], mkDB (authors db) (delete_pk k (books db)) (book_seq db))
      end
  | _, _ => (mkResponse 405 [], db)
  end.

(** [APIView.dispatch]: [initial] runs content negotiation, then
    [perform_authentication] (evaluating [request.user]), then the
    permission check; only then is the handler looked up, a method the
    view does not define being a 405. *)
Definition dispatch (pg : Pagination) (current_year : Z) (v : View) (r : Request) (db : DB)
  : Response * DB :=
  match content_negotiation r with
  | Some code => (mkResponse code [], db)
  | None =>
      match auth_error r with
      | Some e => (mkResponse (auth_error_status r e) [], db)
      | None =>
          match check_permissions v r with
          | Some code => (mkResponse code [], db)
          | None => if str_in (method r) (view_methods v)
                    then handle pg current_year v r db
                    else (mkResponse 405 [], db)
          end
      end
  end.

(** ** Deleting an [Author] *)

(** [author.delete()]: the deletion [Collector] follows
    [Book.author = ForeignKey(Author, on_delete=models.CASCADE)] and deletes
    every [Book] referencing the author, then the author row. *)
Definition Author_delete (db : DB) (a : nat) : DB :=
  mkDB (filter (fun x => negb (Nat.eqb (author_pk x) a)) (authors db))
       (filter (fun b => negb (Nat.eqb (author_id b) a)) (books db))
       (book_seq db).

(** ** A sequence of saves *)

(** [Book.save] called on each [(current_year, book)] in turn; a save that
    raises leaves the tables unchanged. *)
Fixpoint run_saves (trace : list (Z * Book)) (db : DB) : DB :=
  match trace with
  | [] => db
  | (cy, b) :: rest =>
      match Book_save cy db b with
      | Ok (db', _) => run_saves rest db'
      | Err _ => run_saves rest db
      end
  end.

(** A write rejected with an error under the [publication_year] key. *)
Definition rejected_on_year {A : Type} (r : result error_dict A) : Prop :=
  match r with
  | Err e => In "publication_year" (error_keys e)
  | Ok _ => False
  end.

(** ** Request variants used to compare responses *)

(** The same request sent by another user. *)
Definition with_user (r : Request) (u : option PyUser) : Request :=
  mkRequest (method r) u (has_authenticators r) (authenticate_header r)
    (query_params r) (data r) (accept r) (auth_error r) (data_error r).

(** The same request with one more query parameter. *)
Definition add_param (r : Request) (k v : string) : Request :=
  mkRequest (method r) (user r) (has_authenticators r) (authenticate_header r)
    (query_params r ++ [(k, v)]) (data r) (accept r) (auth_error r) (data_error r).

(** The views that create, update or delete a [Book]. *)
Definition write_view (v : View) : bool :=
  match v with
  | BookListCreateView | BookUpdateView _ | BookDeleteView _ => true
  | BookDetailView _ => false
  end.

End Api.

Module Relationship.

(** ** relationship_app/models.py: [Library.books] *)

(** The auto-created through table of
    [books = models.ManyToManyField(Book, related_name='libraries')]:
    rows [(library_id, book_id)], unique per pair. *)
Definition Through := list (nat * nat).

Definition pair_eqb (p q : nat * nat) : bool :=
  Nat.eqb (fst p) (fst q) && Nat.eqb (snd p) (snd q).

(** [library.books.all()] as primary keys. *)
Definition books_of (l : nat) (t : Through) : list nat :=
  map snd (filter (fun p => Nat.eqb (fst p) l) t).

(** [target_ids = set(...)]: each id once (the iteration order of the
    Python set is taken as first occurrence). *)
Fixpoint dedup (ids : list nat) : list nat :=
  match ids with
  | [] => []
  | x :: rest => x :: filter (fun y => negb (Nat.eqb x y)) (dedup rest)
  end.

(** [ManyRelatedManager.add] through [_add_items]: the ids already
    linked to this library are subtracted and one through row is
    bulk-created for each missing id. *)
Definition m2m_add (l : nat) (ids : list nat) (t : Through) : Through :=
  let missing := filter (fun b => negb (existsb (pair_eqb (l, b)) t)) (dedup ids) in
  t ++ map (fun b => (l, b)) missing.

(** A sequence of [library.books.add(...)] calls, in order. *)
Definition m2m_add_all (l : nat) (calls : list (list nat)) (t : Through) : Through :=
  fold_left (fun acc ids => m2m_add l ids acc) calls t.

(** ** relationship_app/models.py: [CustomUserManager] and [UserProfile] *)

(** A row of [CustomUser]: the columns the manager sets ([email],
    [username], [password]) and the flags of [AbstractUser]
    ([is_staff] and [is_superuser] default to false, [is_active] to
    true). *)
Record CustomUser := mkCustomUser {
  user_pk : nat;
  email : string;
  username : string;
  password : string;
  is_staff : bool;
  is_superuser : bool;
  is_active : bool
}.

Record UserProfile := mkUserProfile {
  profile_user : nat;   (** [user = OneToOneField(CustomUser)] *)
  role : string         (** [role = CharField(choices=ROLE_CHOICES, default='member')] *)
}.

(** The user and profile tables; [user_seq] is the [sqlite_sequence]
    entry of the user table ([AUTOINCREMENT] key). *)
Record UserDB := mkUserDB {
  users : list CustomUser;
  profiles : list UserProfile;
  user_seq : nat
}.

Inductive UserError :=
| ValueError : string -> UserError
| IntegrityError : string -> UserError.

Definition ascii_lower (c : ascii) : ascii :=
  let n := nat_of_ascii c in
  if Nat.leb 65 n && Nat.leb n 90 then ascii_of_nat (n + 32) else c.

(** [str.lower()] on ASCII text. *)
Fixpoint py_lower (s : string) : string :=
  match s with
  | EmptyString => EmptyString
  | String c rest => String (ascii_lower c) (py_lower rest)
  end.

(** [s.rsplit("@", 1)] as a pair when there is an ["@"]. *)
Fixpoint rsplit_at (s : string) : option (string * string) :=
  match s with
  | EmptyString => None
  | String c rest =>
      match rsplit_at rest with
      | Some (nm, dom) => Some (String c nm, dom)
      | None => if Ascii.eqb c "@"%char then Some (EmptyString, rest) else None
      end
  end.

(** The text has no ["@"]. *)
Definition no_at (s : string) : Prop := ~ In "@"%char (list_ascii_of_string s).

(** [BaseUserManager.normalize_email]: the domain part after the last
    ["@"] of the stripped address is lower-cased; an address without
    ["@"] is returned unchanged. *)
Definition normalize_email (e : string) : string :=
  match rsplit_at (Api.py_strip e) with
  | Some (nm, dom) => String.append nm (String "@"%char (py_lower dom))
  | None => e
  end.

Definition max_user_pk (us : list CustomUser) : nat :=
  fold_right (fun u m => Nat.max (user_pk u) m) 0%nat us.

Definition profile_of (u : nat) (ps : list UserProfile) : list UserProfile :=
  filter (fun p => Nat.eqb (profile_user p) u) ps.

(** [UserProfile.objects.create(user=..., role=...)]: the one-to-one
    column is unique. *)
Definition create_profile (db : UserDB) (u : nat) (r : string)
  : result UserError UserDB :=
  match profile_of u (profiles db) with
  | [] => Ok (mkUserDB (users db) (profiles db ++ [mkUserProfile u r]) (user_seq db))
  | _ => Err (IntegrityError "UNIQUE constraint failed: relationship_app_userprofile.user_id")
  end.

(** Modelled from the spec: the post_save receivers for [CustomUser] in
    advanced_features_and_security's relationship_app/signals.py (imported
    by [RelationshipAppConfig.ready], not present here). The spec says the
    [UserProfile] is "auto-created on user creation, default role member";
    the receivers are written as the sibling django-models
    relationship_app/signals.py writes them: [create_userprofile] creates
    the profile with [role='member'] when [created], [save_userprofile]
    re-saves an existing profile (no change of its columns). *)
Definition post_save_customuser (db : UserDB) (u : CustomUser) (created : bool)
  : result UserError UserDB :=
  if created then create_profile db (user_pk u) "member" else Ok db.

(** [user.save(using=self._db)] of a new user: INSERT under the unique
    columns [email] and [username], with the key one more than the
    larger of the sequence and the largest key present, then post_save
    with [created=True]. *)
Definition save_new_user (db : UserDB) (u : CustomUser)
  : result UserError (UserDB * CustomUser) :=
  if existsb (fun v => String.eqb (email v) (email u)) (users db)
  then Err (IntegrityError "UNIQUE constraint failed: email")
  else if existsb (fun v => String.eqb (username v) (username u)) (users db)
  then Err (IntegrityError "UNIQUE constraint failed: username")
  else
    let k := S (Nat.max (user_seq db) (max_user_pk (users db))) in
    let u' := mkCustomUser k (email u) (username u) (password u)
                (is_staff u) (is_superuser u) (is_active u) in
    let db1 := mkUserDB (users db ++ [u']) (profiles db) k in
    match post_save_customuser db1 u' true with
    | Ok db2 => Ok (db2, u')
    | Err e => Err e
    end.

Section Manager.

(** [make_password], the hasher of [set_password]. *)
Variable make_password : option string -> string.

(** The [**extra_fields] the manager passes to [self.model(...)]: the
    username and the three flags. *)
Record ExtraFields := mkExtraFields {
  ef_username : string;
  ef_is_staff : bool;
  ef_is_superuser : bool;
  ef_is_active : bool
}.

(** [CustomUserManager.create_user(email, password=None, **extra_fields)]:
    [email] is [None] or a string. *)
Definition create_user_with (db : UserDB) (em : option string) (pw : option string)
    (ef : ExtraFields) : result UserError (UserDB * CustomUser) :=
  match em with
  | None | Some EmptyString => Err (ValueError "The Email field must be set")
  | Some e =>
      let e' := normalize_email e in
      let u := mkCustomUser 0 e' (ef_username ef) "" (ef_is_staff ef)
                 (ef_is_superuser ef) (ef_is_active ef) in
      let u := mkCustomUser (user_pk u) (email u) (username u) (make_password pw)
                 (is_staff u) (is_superuser u) (is_active u) in
      save_new_user db u
  end.

(** [create_user(email, password, username=uname)]: the flags keep the
    model defaults. *)
Definition create_user (db : UserDB) (em : option string) (pw : option string)
    (uname : string) : result UserError (UserDB * CustomUser) :=
  create_user_with db em pw (mkExtraFields uname false false true).

(** [CustomUserManager.create_superuser(email, password, username=uname,
    ...)]: [is_staff], [is_superuser] and [is_active] default to [True]
    ([setdefault]); an [is_staff] or [is_superuser] that [is not True]
    raises [ValueError] before anything is saved; otherwise the call is
    [create_user] with the three flags. *)
Definition create_superuser (db : UserDB) (em pw : option string) (uname : string)
    (is_staff is_superuser : option Api.PyValue) (is_active : option bool)
  : result UserError (UserDB * CustomUser) :=
  let is_staff := match is_staff with Some v => v | None => Api.PyBool true end in
  let is_superuser := match is_superuser with Some v => v | None => Api.PyBool true end in
  let is_active := match is_active with Some b => b | None => true end in
  match is_staff with
  | Api.PyBool true =>
      match is_superuser with
      | Api.PyBool true => create_user_with db em pw (mkExtraFields uname true true is_active)
      | _ => Err (ValueError "Superuser must have is_superuser=True.")
      end
  | _ => Err (ValueError "Superuser must have is_staff=True.")
  end.

End Manager.

(** ** relationship_app/views.py (django-models) *)

(** [user.is_authenticated and hasattr(user, 'userprofile') and
    user.userprofile.role == role_name]: [None] is the anonymous user,
    [Some pk] a logged-in user; the profile is the one-to-one row of
    [UserProfile] for that user. *)
Definition has_role (role_name : string) (db : UserDB) (u : option nat) : bool :=
  match u with
  | None => false
  | Some uid => match profile_of uid (profiles db) with
                | p :: _ => String.eqb (role p) role_name
                | [] => false
                end
  end.

Definition is_admin := has_role "admin".
Definition is_librarian := has_role "librarian".
Definition is_member := has_role "member".

(** The outcome of a view under [@user_passes_test(test)]: the rendered
    dashboard (its context [role]) or the redirect to the login page. *)
Inductive RoleOutcome :=
| RenderedDashboard : string -> RoleOutcome
| RedirectToLogin : RoleOutcome.

Definition user_passes_test (test : UserDB -> option nat -> bool) (ctx_role : string)
    (db : UserDB) (u : option nat) : RoleOutcome :=
  if test db u then RenderedDashboard ctx_role else RedirectToLogin.

Definition admin_view := user_passes_test is_admin "Admin".
Definition librarian_view := user_passes_test is_librarian "Librarian".
Definition member_view := user_passes_test is_member "Member".

(** [LibraryDetailView.get_context_data]: [books_count] is
    [self.object.books.count()]. *)
Definition books_count (l : nat) (t : Through) : nat := List.length (books_of l t).

(** The user table after a [create_user] call: unchanged when it raises. *)
Definition users_after (make_password : option string -> string) (db : UserDB)
    (em pw : option string) (uname : string) : list CustomUser :=
  match create_user make_password db em pw uname with
  | Ok (db', _) => users db'
  | Err _ => users db
  end.

End Relationship.

Module Bookshelf.

(** ** bookshelf/views.py: [book_list] *)

(** The [Book] of the bookshelf app: [author] is a text column (the
    [BookForm] edits it with a [TextInput]). *)
Record Book := mkBook {
  title : string;
  author : string;
  publication_year : Z
}.

Record Request := mkRequest {
  user_perms : list string;
  GET : list (string * string)
}.

Inductive Outcome :=
| PermissionDenied : Outcome
| Rendered : list Book -> string -> Outcome.   (** context [books], [search_query] *)

Fixpoint prefixb (p s : string) : bool :=
  match p, s with
  | EmptyString, _ => true
  | String c p', String d s' => Ascii.eqb c d && prefixb p' s'
  | String _ _, EmptyString => false
  end.

Fixpoint containsb (needle hay : string) : bool :=
  prefixb needle hay ||
  match hay with
  | EmptyString => false
  | String _ rest => containsb needle rest
  end.

(** The [icontains] lookup: a substring test on lower-cased text. *)
Definition icontains (field value : string) : bool :=
  containsb (Relationship.py_lower value) (Relationship.py_lower field).

(** [book_list], under [@permission_required('bookshelf.can_view_book',
    raise_exception=True)]. *)
Definition book_list (r : Request) (all_books : list Book) : Outcome :=
  if negb (Api.str_in "bookshelf.can_view_book" (user_perms r)) then PermissionDenied
  else
    let search_query := Api.py_strip (Api.qd_get "search" "" (GET r)) in
    let books := if String.eqb search_query "" then all_books
                 else filter (fun b => icontains (title b) search_query
                                       || icontains (author b) search_query) all_books in
    Rendered books search_query.

(** The specification's reading of the search, written from its words rather than
    from the code: [needle] occurs in [hay] ignoring (ASCII) case. *)
Definition ci_substring_spec (needle hay : string) : Prop :=
  exists pre suf, Relationship.py_lower hay =
    String.append pre (String.append (Relationship.py_lower needle) suf).

(** A string made of whitespace only (the empty string included). *)
Definition all_space (s : string) : bool :=
  forallb Api.is_space (list_ascii_of_string s).

End Bookshelf.

(** * Properties *)

Module ApiFacts.
Import Api.

Lemma keys_tag (k k' : string) (l : list string) :
  In k (map fst (map (fun m => (k', m)) l)) <-> k = k' /\ l <> [].
Proof.
  rewrite map_map. simpl. destruct l as [|x l]; simpl.
  - split; [intros []|intros [_ H]; contradiction].
  - split.
    + intros H. split; [|discriminate].
      destruct H as [H|H]; [symmetry; exact H|].
      apply in_map_iff in H. destruct H as [? [H _]]. symmetry; exact H.
    + intros [-> _]. left; reflexivity.
Qed.

Lemma range_errors_ne (v : Z) :
  range_errors v <> [] <-> v < int_min \/ int_max < v.
Proof.
  unfold range_errors.
  destruct (Z.ltb_spec v int_min), (Z.ltb_spec int_max v); simpl;
    split; intro Hx; try discriminate; try lia;
    try (exfalso; apply Hx; reflexivity).
Qed.

Lemma range_errors_nil (v : Z) :
  int_min <= v <= int_max -> range_errors v = [].
Proof.
  intros Hv. unfold range_errors.
  destruct (Z.ltb_spec v int_min); [lia|].
  destruct (Z.ltb_spec int_max v); [lia|reflexivity].
Qed.

Lemma clean_fields_year_key (auths : list Author) (b : Book) :
  In "publication_year" (error_keys (Book_clean_fields auths b)) <->
  publication_year b < int_min \/ int_max < publication_year b.
Proof.
  rewrite <- range_errors_ne.
  unfold Book_clean_fields, error_keys. rewrite !map_app, !in_app_iff.
  destruct (pk b) as [k|]; rewrite ?keys_tag;
    destruct (String.eqb (title b) ""), (Nat.ltb 200 (String.length (title b))),
      (existsb _ auths); simpl; intuition discriminate.
Qed.

Lemma full_clean_year_key (cy : Z) (auths : list Author) (b : Book) :
  In "publication_year" (error_keys (Book_full_clean cy auths b)) <->
  cy < publication_year b \/ publication_year b < int_min \/ int_max < publication_year b.
Proof.
  unfold Book_full_clean, error_keys. rewrite map_app, in_app_iff.
  fold (error_keys (Book_clean_fields auths b)). rewrite clean_fields_year_key.
  unfold Book_clean.
  destruct (publication_year b >? cy) eqn:E.
  - apply Z.gtb_lt in E. simpl. intuition.
  - rewrite Z.gtb_ltb in E; apply Z.ltb_ge in E. simpl.
    split; [intros [H|[]]; right; exact H|].
    intros [H|H]; [lia|left; exact H].
Qed.

Lemma save_year_key (cy : Z) (db : DB) (b : Book) :
  rejected_on_year (Book_save cy db b) <->
  cy < publication_year b \/ publication_year b < int_min \/ int_max < publication_year b.
Proof.
  rewrite <- (full_clean_year_key cy (authors db) b).
  unfold Book_save.
  destruct (Book_full_clean cy (authors db) b) as [|e es] eqn:E.
  - destruct (save_row (books db) (book_seq db) b) as [[bs' s'] b']. simpl. tauto.
  - simpl. tauto.
Qed.

Lemma year_field_err (cy y : Z) :
  (exists m, year_field cy y = Err m) <-> cy < y \/ y < int_min \/ int_max < y.
Proof.
  unfold year_field.
  pose proof (range_errors_ne y) as Hr.
  destruct (range_errors y) as [|m ms].
  - unfold validate_publication_year.
    destruct (y >? cy) eqn:E.
    + apply Z.gtb_lt in E. split; [intros _; left; exact E|intros _; eexists; reflexivity].
    + rewrite Z.gtb_ltb in E; apply Z.ltb_ge in E.
      split; [intros [m Hm]; discriminate|].
      intros [H|H]; [lia|]. exfalso. apply Hr in H. apply H. reflexivity.
  - split; [intros _; right; apply Hr; discriminate|intros _; exists m; reflexivity].
Qed.

Lemma serializer_year_key (cy : Z) (auths : list Author) (partial : bool)
    (t : option string) (a : option nat) (y : Z) :
  rejected_on_year (BookSerializer_validate cy auths partial (mkBookInput t (Some y) a))
  <-> cy < y \/ y < int_min \/ int_max < y.
Proof.
  pose proof (year_field_err cy y) as Hy.
  unfold BookSerializer_validate, run_field. simpl.
  destruct (year_field cy y) as [y'|m] eqn:Ey.
  - assert (Hn : ~ (cy < y \/ y < int_min \/ int_max < y))
      by (rewrite <- Hy; intros [m Hm]; discriminate).
    split; [|intro H; contradiction].
    intro H; exfalso.
    destruct t as [t|], a as [a|]; try destruct (title_field t);
      try destruct (author_field auths a); try destruct partial; simpl in H;
      intuition discriminate.
  - assert (Hp : cy < y \/ y < int_min \/ int_max < y) by (apply Hy; exists m; reflexivity).
    split; [intros _; exact Hp|intros _].
    destruct t as [t|], a as [a|]; try destruct (title_field t);
      try destruct (author_field auths a); try destruct partial; simpl; auto.
Qed.

(** C1 (as the code has it): for a current year within the range of an
    [IntegerField], a [Book] write, through [Book.save] (model path, which
    also serves create and update) or through [BookSerializer]
    validation, is rejected with an error under [publication_year] exactly
    when the year is greater than the current year or below the
    [IntegerField] minimum [-9223372036854775808]; a year not greater than
    the current year is returned unchanged by [validate_publication_year]. *)
Theorem C1_year_rejected_iff_future_or_below_range (cy : Z) :
  cy <= int_max ->
  (forall (db : DB) (b : Book),
     rejected_on_year (Book_save cy db b) <->
     cy < publication_year b \/ publication_year b < int_min) /\
  (forall (auths : list Author) (partial : bool) (t : option string)
          (a : option nat) (y : Z),
     rejected_on_year (BookSerializer_validate cy auths partial (mkBookInput t (Some y) a))
     <-> cy < y \/ y < int_min) /\
  (forall y : Z, validate_publication_year cy y = Ok y <-> y <= cy).
Proof.
  intro Hcy. split; [|split].
  - intros db b. rewrite save_year_key. intuition lia.
  - intros. rewrite serializer_year_key. intuition lia.
  - intro y. unfold validate_publication_year.
    destruct (y >? cy) eqn:E.
    + apply Z.gtb_lt in E. split; [discriminate|lia].
    + rewrite Z.gtb_ltb in E; apply Z.ltb_ge in E. split; [intros _; exact E|reflexivity].
Qed.

(** C1, counterexample: the year [-10^22] is not greater than the current
    year 2026, yet [Book.save] and [BookSerializer] both reject it under
    [publication_year], by the range validators of the [IntegerField]. *)
Lemma C1_low_year_rejected :
  -10000000000000000000000 <= 2026 /\
  rejected_on_year (Book_save 2026 (mkDB [mkAuthor 1 "Ann"] [] 0)
                      (mkBook None "T" (-10000000000000000000000) 1)) /\
  rejected_on_year (BookSerializer_validate 2026 [mkAuthor 1 "Ann"] false
                      (mkBookInput (Some "T") (Some (-10000000000000000000000)) (Some 1%nat))).
Proof. split; [lia|split; simpl; auto]. Qed.

(** C1, witness: with current year 2026, the year 2100 is rejected by
    [Book.save]. *)
Lemma C1_year_rejected_witness :
  rejected_on_year (Book_save 2026 (mkDB [mkAuthor 1 "Ann"] [] 0) (mkBook None "T" 2100 1)).
Proof.
  apply (proj2 (proj1 (C1_year_rejected_iff_future_or_below_range 2026
    ltac:(unfold int_max; lia)) (mkDB [mkAuthor 1 "Ann"] [] 0) (mkBook None "T" 2100 1))).
  left. simpl. lia.
Defined.

(** C2: [IsAuthenticatedForWrite.has_permission] returns a truthy value
    exactly when the method is GET, HEAD or OPTIONS or the request's user
    is authenticated. *)
Theorem C2_has_permission_iff (r : Request) :
  truthy (IsAuthenticatedForWrite_has_permission r) = true <->
  In (method r) ["GET"; "HEAD"; "OPTIONS"] \/ user_authenticated r = true.
Proof.
  unfold IsAuthenticatedForWrite_has_permission, user_authenticated, str_in.
  assert (Hm : existsb (String.eqb (method r)) read_methods = true <->
               In (method r) ["GET"; "HEAD"; "OPTIONS"]).
  { rewrite existsb_exists. split.
    - intros [x [Hx Heq]]. apply String.eqb_eq in Heq. subst. exact Hx.
    - intro H. exists (method r). split; [exact H|apply String.eqb_refl]. }
  destruct (existsb (String.eqb (method r)) read_methods) eqn:E.
  - simpl. split; [intros _; left; apply Hm; reflexivity|reflexivity].
  - assert (~ In (method r) ["GET"; "HEAD"; "OPTIONS"]) by (rewrite <- Hm; discriminate).
    destruct (user r) as [u|]; simpl;
      [destruct (is_authenticated u); simpl|];
      (split; [intro Hf; try discriminate Hf; right; reflexivity
              |intros [Hin|Hf]; [contradiction|try discriminate Hf; reflexivity]]).
Qed.

(** C6: deleting an [Author] deletes exactly the books referencing it
    (cascade); afterwards no book references it and the author is gone. *)
Theorem C6_author_delete_cascades (db : DB) (a : nat) :
  Forall (fun b => author_id b <> a) (books (Author_delete db a)) /\
  (forall b, In b (books (Author_delete db a)) <-> In b (books db) /\ author_id b <> a) /\
  ~ In a (map author_pk (authors (Author_delete db a))).
Proof.
  unfold Author_delete; simpl.
  assert (Hb : forall b, In b (filter (fun b => negb (Nat.eqb (author_id b) a)) (books db))
                         <-> In b (books db) /\ author_id b <> a).
  { intro b. rewrite filter_In, negb_true_iff, Nat.eqb_neq. tauto. }
  split; [|split].
  - apply Forall_forall. intros b Hin. apply Hb in Hin. tauto.
  - exact Hb.
  - rewrite in_map_iff. intros [x [Hx Hin]].
    apply filter_In in Hin. destruct Hin as [_ Hn].
    rewrite negb_true_iff, Nat.eqb_neq in Hn. contradiction.
Qed.

Lemma save_row_rows (bs : list Book) (seq : nat) (b r : Book) :
  In r (fst (fst (save_row bs seq b))) ->
  In r bs \/ publication_year r = publication_year b.
Proof.
  unfold save_row. destruct (pk b) as [k|].
  - destruct (existsb _ bs); simpl.
    + rewrite in_map_iff. intros [x [Hx Hin]]. subst r.
      destruct (pk x) as [k'|]; [|left; exact Hin].
      destruct (Nat.eqb k k'); [right; reflexivity|left; exact Hin].
    + rewrite in_app_iff. simpl. intros [H|[H|[]]]; [left; exact H|subst; right; reflexivity].
  - simpl. rewrite in_app_iff. simpl.
    intros [H|[H|[]]]; [left; exact H|subst; right; reflexivity].
Qed.

Lemma Book_save_ok (cy : Z) (db db' : DB) (b b' : Book) :
  Book_save cy db b = Ok (db', b') ->
  publication_year b <= cy /\
  (forall r, In r (books db') -> In r (books db) \/ publication_year r = publication_year b).
Proof.
  unfold Book_save. intro H.
  destruct (Book_full_clean cy (authors db) b) as [|e es] eqn:E; [|discriminate].
  split.
  - destruct (Z_lt_le_dec cy (publication_year b)) as [Hlt|Hle]; [|exact Hle].
    assert (Hk : In "publication_year" (error_keys (Book_full_clean cy (authors db) b)))
      by (apply full_clean_year_key; left; exact Hlt).
    rewrite E in Hk. contradiction.
  - destruct (save_row (books db) (book_seq db) b) as [[bs' s'] x] eqn:Es.
    injection H as <- _.
    intros r Hr. simpl in Hr. apply (save_row_rows (books db) (book_seq db) b r).
    rewrite Es. exact Hr.
Qed.

(** Every stored row comes from an accepted save of [T] whose year was
    not after that save's current year. *)
Definition saved_within (T : list (Z * Book)) (db : DB) : Prop :=
  forall r, In r (books db) ->
    exists cy b, In (cy, b) T /\ publication_year r = publication_year b /\
                 publication_year b <= cy.

Lemma run_saves_within (T trace : list (Z * Book)) (db : DB) :
  incl trace T -> saved_within T db -> saved_within T (run_saves trace db).
Proof.
  revert db. induction trace as [|[cy b] rest IH]; intros db Hincl Hdb; simpl; [exact Hdb|].
  destruct (Book_save cy db b) as [[db' b']|e] eqn:E;
    apply IH; try (intros x Hx; apply Hincl; right; exact Hx); try exact Hdb.
  apply Book_save_ok in E. destruct E as [Hy Hrows].
  intros r Hr. destruct (Hrows r Hr) as [Hold|Heq].
  - apply Hdb, Hold.
  - exists cy, b. repeat split; [apply Hincl; left; reflexivity|exact Heq|exact Hy].
Qed.

(** C7: after any sequence of [Book.save] calls on an empty table (with
    any value of its key sequence), every stored book was written by a
    successful save whose book had [publication_year] at most the current
    year of that save. *)
Theorem C7_saved_books_not_in_future (auths : list Author) (s : nat)
    (trace : list (Z * Book)) :
  Forall (fun r => exists cy b, In (cy, b) trace /\
                     publication_year r = publication_year b /\ publication_year b <= cy)
    (books (run_saves trace (mkDB auths [] s))).
Proof.
  apply Forall_forall.
  apply (run_saves_within trace trace (mkDB auths [] s)).
  - intros x Hx; exact Hx.
  - intros r [].
Qed.

Lemma qd_get_app_other (key k v d : string) (q : list (string * string)) :
  k <> key -> qd_get key d (q ++ [(k, v)]) = qd_get key d q.
Proof.
  intro Hk. revert d. induction q as [|[k' v'] rest IH]; intro d; simpl.
  - apply String.eqb_neq in Hk. rewrite Hk. reflexivity.
  - apply IH.
Qed.

Lemma get_queryset_search (db : DB) (r : Request) (s : string) :
  get_queryset db (add_param r "search" s) = get_queryset db r.
Proof.
  unfold get_queryset. simpl. rewrite qd_get_app_other by discriminate. reflexivity.
Qed.

(** A [search] parameter changes none of the query parameters the list
    endpoint reads ([format], [author_id], [page], [limit], [offset]). *)
Lemma dispatch_list_search (pg : Pagination) (cy : Z) (db : DB) (r : Request) (s : string) :
  dispatch pg cy BookListCreateView (add_param r "search" s) db =
  dispatch pg cy BookListCreateView r db.
Proof.
  destruct r as [m u ha ah q d acc ae de].
  assert (Hq : forall key dflt, key <> "search" ->
            qd_get key dflt (q ++ [("search", s)]) = qd_get key dflt q)
    by (intros; apply qd_get_app_other; congruence).
  unfold add_param, dispatch, content_negotiation, handle, get_queryset, list_response,
    paginate_queryset, page_number_paginate, limit_offset_paginate.
  cbn [query_params method user has_authenticators authenticate_header data accept
       auth_error data_error].
  rewrite !Hq by discriminate. reflexivity.
Qed.

Lemma dispatch_list_get (pg : Pagination) (cy : Z) (db : DB) (r : Request) :
  method r = "GET" -> content_negotiation r = None -> auth_error r = None ->
  dispatch pg cy BookListCreateView r db =
  match get_queryset db r with
  | Some bs => (list_response pg r bs, db)
  | None => (mkResponse 500 [], db)
  end.
Proof.
  intros Hm Hc Ha. destruct r as [m u ha ah q d acc ae de].
  simpl in Hm, Ha. subst m ae.
  unfold dispatch. rewrite Hc. reflexivity.
Qed.

Lemma slice_ex (n m : nat) (bs : list Book) :
  exists pre post, bs = pre ++ firstn n (skipn m bs) ++ post.
Proof.
  exists (firstn m bs), (skipn n (skipn m bs)).
  rewrite firstn_skipn. symmetry. apply firstn_skipn.
Qed.

Lemma list_response_slice (pg : Pagination) (r : Request) (bs : list Book) :
  exists pre post, bs = pre ++ payload (list_response pg r bs) ++ post.
Proof.
  assert (Hall : exists pre post, bs = pre ++ bs ++ post)
    by (exists [], []; simpl; rewrite app_nil_r; reflexivity).
  assert (Hnil : exists pre post, bs = pre ++ @nil Book ++ post)
    by (exists bs, []; simpl; rewrite app_nil_r; reflexivity).
  unfold list_response, paginate_queryset.
  destruct pg as [|[[|n]|]|dl]; try exact Hall.
  - unfold page_number_paginate. cbv zeta.
    match goal with |- context [match ?x with Some _ => _ | None => _ end] =>
      destruct x as [k|] end; [|exact Hnil].
    match goal with |- context [if ?c then _ else _] => destruct c end;
      [exact Hnil|apply slice_ex].
  - unfold limit_offset_paginate. cbv zeta.
    match goal with |- context [match ?x with Some _ => _ | None => _ end] =>
      destruct x as [l|] end; [apply slice_ex|exact Hall].
Qed.

(** C5 (as the code has it): the list endpoint filters by [author_id]
    only. A [search] query parameter leaves the response unchanged. A GET
    that passes content negotiation and authentication lists, through the
    configured pagination, every book when there is no [author_id] and
    that author's books for a numeric [author_id]; what it lists is always
    a contiguous part of that queryset (all of it without pagination). *)
Theorem C5_list_filters_by_author_id_only (pg : Pagination) (cy : Z) (db : DB)
    (r : Request) :
  (forall s : string,
     dispatch pg cy BookListCreateView (add_param r "search" s) db =
     dispatch pg cy BookListCreateView r db) /\
  (method r = "GET" -> content_negotiation r = None -> auth_error r = None ->
     qd_get "author_id" "" (query_params r) = "" ->
     dispatch pg cy BookListCreateView r db = (list_response pg r (books db), db)) /\
  (forall n : Z, method r = "GET" -> content_negotiation r = None -> auth_error r = None ->
     py_int (qd_get "author_id" "" (query_params r)) = Some n ->
     dispatch pg cy BookListCreateView r db =
     (list_response pg r (filter (fun b => Z.eqb (Z.of_nat (author_id b)) n) (books db)),
      db)) /\
  (forall bs : list Book, exists pre post,
     bs = pre ++ payload (list_response pg r bs) ++ post) /\
  list_response NoPagination r (books db) = mkResponse 200 (books db).
Proof.
  split; [|split; [|split; [|split]]].
  - intro s. apply dispatch_list_search.
  - intros Hm Hc Ha Hq. rewrite dispatch_list_get by assumption.
    unfold get_queryset. rewrite Hq. reflexivity.
  - intros n Hm Hc Ha Hn. rewrite dispatch_list_get by assumption.
    unfold get_queryset.
    destruct (String.eqb (qd_get "author_id" "" (query_params r)) "") eqn:E.
    + apply String.eqb_eq in E. rewrite E in Hn. discriminate.
    + rewrite Hn. reflexivity.
  - intro bs. apply list_response_slice.
  - reflexivity.
Qed.

Lemma dispatch_detail_get (pg : Pagination) (cy : Z) (db : DB) (r : Request) (k : nat) :
  method r = "GET" -> content_negotiation r = None -> auth_error r = None ->
  dispatch pg cy (BookDetailView k) r db =
  match get_object db k with
  | Some b => (mkResponse 200 [b], db)
  | None => (mkResponse 404 [], db)
  end.
Proof.
  intros Hm Hc Ha. destruct r as [m u ha ah q d acc ae de].
  simpl in Hm, Ha. subst m ae.
  unfold dispatch. rewrite Hc. reflexivity.
Qed.

(** C3 (as the code has it): a POST, PUT, PATCH or DELETE to the create,
    update or delete endpoint from a requester that is not authenticated
    leaves the tables unchanged, and once content negotiation has passed
    it is answered 401 or 403. The response to a GET on the list or
    detail endpoint does not depend on the user; once content negotiation
    and authentication pass, the detail answers 200 with the book when it
    exists and 404 when it does not, and the list answers 200 when its
    queryset can be built (no or a numeric [author_id]) and the page
    requested is valid. *)
Theorem C3_writes_refused_reads_auth_independent (pg : Pagination) (cy : Z) (db : DB)
    (r : Request) :
  (forall v : View, write_view v = true -> authenticated r = false ->
     In (method r) ["POST"; "PUT"; "PATCH"; "DELETE"] ->
     snd (dispatch pg cy v r db) = db /\
     (content_negotiation r = None ->
      status (fst (dispatch pg cy v r db)) = 401 \/
      status (fst (dispatch pg cy v r db)) = 403)) /\
  (forall u : option PyUser, method r = "GET" ->
     dispatch pg cy BookListCreateView (with_user r u) db =
     dispatch pg cy BookListCreateView r db /\
     (forall k, dispatch pg cy (BookDetailView k) (with_user r u) db =
                dispatch pg cy (BookDetailView k) r db)) /\
  (forall k : nat, method r = "GET" -> content_negotiation r = None -> auth_error r = None ->
     dispatch pg cy (BookDetailView k) r db =
     match get_object db k with
     | Some b => (mkResponse 200 [b], db)
     | None => (mkResponse 404 [], db)
     end) /\
  (forall bs : list Book, method r = "GET" -> content_negotiation r = None ->
     auth_error r = None -> get_queryset db r = Some bs ->
     paginate_queryset pg r bs <> InvalidPage ->
     status (fst (dispatch pg cy BookListCreateView r db)) = 200).
Proof.
  split; [|split; [|split]].
  - intros v Hv Hua Hin.
    destruct r as [m u ha ah q d acc ae de].
    unfold authenticated, user_authenticated in Hua. simpl in Hua, Hin.
    unfold dispatch.
    destruct (content_negotiation _) as [c|];
      [split; [reflexivity|intro Hc; discriminate Hc]|].
    destruct ae as [e|].
    + split; [reflexivity|intros _]. destruct e, ah; simpl; auto.
    + destruct Hin as [Hm|[Hm|[Hm|[Hm|[]]]]]; subst m;
        destruct v; try discriminate Hv;
        destruct u as [u|]; destruct ha, ah;
        unfold check_permissions, user_authenticated; simpl;
        try rewrite Hua; simpl; split; auto.
  - intros u Hm. destruct r as [m u0 ha ah q d acc ae de]. simpl in Hm. subst m.
    split; [reflexivity|intro k; reflexivity].
  - intros k Hm Hc Ha. apply dispatch_detail_get; assumption.
  - intros bs Hm Hc Ha Hq Hp. rewrite dispatch_list_get by assumption.
    rewrite Hq. simpl. unfold list_response.
    destruct (paginate_queryset pg r bs); [reflexivity|reflexivity|contradiction].
Qed.

(** C3, counterexample: a GET on the detail endpoint of a book that does
    not exist does not succeed, for an anonymous and for an authenticated
    requester alike (404); a GET on the list endpoint with a non-numeric
    [author_id] fails with the ORM's [ValueError] (500); with
    [?format=xml] both a GET and an anonymous POST are answered 404 by
    content negotiation, before authentication. *)
Lemma C3_get_does_not_always_succeed :
  let anon := mkRequest "GET" (Some (mkPyUser false)) true true []
                (mkBookInput None None None) [("*", "*")] None None in
  status (fst (dispatch NoPagination 2026 (BookDetailView 1) anon (mkDB [] [] 0))) = 404 /\
  status (fst (dispatch NoPagination 2026 (BookDetailView 1)
                 (with_user anon (Some (mkPyUser true))) (mkDB [] [] 0))) = 404 /\
  status (fst (dispatch NoPagination 2026 BookListCreateView
                 (add_param anon "author_id" "abc") (mkDB [] [] 0))) = 500 /\
  status (fst (dispatch NoPagination 2026 BookListCreateView
                 (add_param anon "format" "xml") (mkDB [] [] 0))) = 404 /\
  status (fst (dispatch NoPagination 2026 BookListCreateView
                 (mkRequest "POST" (Some (mkPyUser false)) true true [("format", "xml")]
                    (mkBookInput None None None) [("*", "*")] None None)
                 (mkDB [] [] 0))) = 404.
Proof. vm_compute. repeat split. Qed.

(** C3, witness: an anonymous DELETE on the delete endpoint of an
    existing book leaves it in place and is refused with 401. *)
Lemma C3_writes_refused_witness :
  snd (dispatch NoPagination 2026 (BookDeleteView 1)
     (mkRequest "DELETE" (Some (mkPyUser false)) true true [] (mkBookInput None None None)
        [("*", "*")] None None)
     (mkDB [mkAuthor 1 "Ann"] [mkBook (Some 1%nat) "Notes" 2001 1] 1)) =
  mkDB [mkAuthor 1 "Ann"] [mkBook (Some 1%nat) "Notes" 2001 1] 1 /\
  (content_negotiation
     (mkRequest "DELETE" (Some (mkPyUser false)) true true [] (mkBookInput None None None)
        [("*", "*")] None None) = None ->
   status (fst (dispatch NoPagination 2026 (BookDeleteView 1)
     (mkRequest "DELETE" (Some (mkPyUser false)) true true [] (mkBookInput None None None)
        [("*", "*")] None None)
     (mkDB [mkAuthor 1 "Ann"] [mkBook (Some 1%nat) "Notes" 2001 1] 1))) = 401 \/
   status (fst (dispatch NoPagination 2026 (BookDeleteView 1)
     (mkRequest "DELETE" (Some (mkPyUser false)) true true [] (mkBookInput None None None)
        [("*", "*")] None None)
     (mkDB [mkAuthor 1 "Ann"] [mkBook (Some 1%nat) "Notes" 2001 1] 1))) = 403).
Proof.
  apply (proj1 (C3_writes_refused_reads_auth_independent NoPagination 2026
    (mkDB [mkAuthor 1 "Ann"] [mkBook (Some 1%nat) "Notes" 2001 1] 1)
    (mkRequest "DELETE" (Some (mkPyUser false)) true true [] (mkBookInput None None None)
       [("*", "*")] None None))).
  - reflexivity.
  - reflexivity.
  - simpl. right; right; right; left; reflexivity.
Defined.

(** C5, counterexample: with [search=Django] the list endpoint still
    returns every book, also the one whose title does not mention it. *)
Lemma C5_search_not_applied :
  payload (fst (dispatch NoPagination 2026 BookListCreateView
     (mkRequest "GET" None true true [("search", "Django")] (mkBookInput None None None)
        [("*", "*")] None None)
     (mkDB [mkAuthor 1 "Ann"]
           [mkBook (Some 1%nat) "Django Basics" 2020 1;
            mkBook (Some 2%nat) "Rocq Proofs" 2021 1] 2))) =
  [mkBook (Some 1%nat) "Django Basics" 2020 1;
   mkBook (Some 2%nat) "Rocq Proofs" 2021 1].
Proof. vm_compute. reflexivity. Qed.

(** C5, witness: a GET with [author_id=1] and a [search] lists the books
    of author 1. *)
Lemma C5_author_filter_witness :
  dispatch NoPagination 2026 BookListCreateView
    (mkRequest "GET" None true true [("author_id", "1"); ("search", "x")]
       (mkBookInput None None None) [("*", "*")] None None)
    (mkDB [mkAuthor 1 "Ann"; mkAuthor 2 "Bo"]
          [mkBook (Some 1%nat) "A" 2020 1; mkBook (Some 2%nat) "B" 2021 2] 2) =
  (list_response NoPagination
     (mkRequest "GET" None true true [("author_id", "1"); ("search", "x")]
        (mkBookInput None None None) [("*", "*")] None None)
     [mkBook (Some 1%nat) "A" 2020 1],
   mkDB [mkAuthor 1 "Ann"; mkAuthor 2 "Bo"]
        [mkBook (Some 1%nat) "A" 2020 1; mkBook (Some 2%nat) "B" 2021 2] 2).
Proof.
  apply (proj1 (proj2 (proj2 (C5_list_filters_by_author_id_only NoPagination 2026
    (mkDB [mkAuthor 1 "Ann"; mkAuthor 2 "Bo"]
          [mkBook (Some 1%nat) "A" 2020 1; mkBook (Some 2%nat) "B" 2021 2] 2)
    (mkRequest "GET" None true true [("author_id", "1"); ("search", "x")]
       (mkBookInput None None None) [("*", "*")] None None)))) 1).
  - reflexivity.
  - vm_compute. reflexivity.
  - reflexivity.
  - vm_compute. reflexivity.
Defined.

End ApiFacts.

Module RelationshipFacts.
Import Relationship.
Local Open Scope nat_scope.

Lemma pair_eqb_true (p q : nat * nat) : pair_eqb p q = true <-> p = q.
Proof.
  destruct p as [a b], q as [c d]. unfold pair_eqb; simpl.
  rewrite andb_true_iff, !Nat.eqb_eq. split; [intros [-> ->]; reflexivity|].
  intro H. injection H as -> ->. split; reflexivity.
Qed.

Lemma existsb_pair (p : nat * nat) (t : Through) :
  existsb (pair_eqb p) t = true <-> In p t.
Proof.
  rewrite existsb_exists. split.
  - intros [q [Hq He]]. apply pair_eqb_true in He. subst. exact Hq.
  - intro H. exists p. split; [exact H|apply pair_eqb_true; reflexivity].
Qed.

Lemma In_books_of (l b : nat) (t : Through) : In b (books_of l t) <-> In (l, b) t.
Proof.
  unfold books_of. rewrite in_map_iff. split.
  - intros [[l' b'] [Hb Hin]]. simpl in Hb. subst b'.
    apply filter_In in Hin. destruct Hin as [Hin Hl]. apply Nat.eqb_eq in Hl.
    simpl in Hl. subst. exact Hin.
  - intro H. exists (l, b). split; [reflexivity|]. apply filter_In.
    split; [exact H|apply Nat.eqb_refl].
Qed.

Lemma In_dedup (x : nat) (ids : list nat) : In x (dedup ids) <-> In x ids.
Proof.
  induction ids as [|y rest IH]; simpl; [tauto|].
  rewrite filter_In, IH, negb_true_iff, Nat.eqb_neq.
  destruct (Nat.eq_dec y x); [subst; tauto|]. intuition.
Qed.

Lemma NoDup_dedup (ids : list nat) : NoDup (dedup ids).
Proof.
  induction ids as [|y rest IH]; simpl; constructor.
  - rewrite filter_In, negb_true_iff, Nat.eqb_neq. tauto.
  - apply NoDup_filter, IH.
Qed.

Lemma books_of_add (l : nat) (ids : list nat) (t : Through) :
  books_of l (m2m_add l ids t) =
  books_of l t ++ filter (fun b => negb (existsb (pair_eqb (l, b)) t)) (dedup ids).
Proof.
  unfold m2m_add, books_of. rewrite filter_app, map_app. f_equal.
  induction (filter _ (dedup ids)) as [|x rest IH]; simpl; [reflexivity|].
  rewrite Nat.eqb_refl. simpl. f_equal. exact IH.
Qed.

Lemma In_books_of_add (l b : nat) (ids : list nat) (t : Through) :
  In b (books_of l (m2m_add l ids t)) <-> In b (books_of l t) \/ In b ids.
Proof.
  rewrite books_of_add, in_app_iff, filter_In, In_dedup, negb_true_iff.
  rewrite In_books_of. destruct (existsb (pair_eqb (l, b)) t) eqn:E.
  - apply existsb_pair in E. intuition discriminate.
  - intuition.
Qed.

Lemma NoDup_books_of_add (l : nat) (ids : list nat) (t : Through) :
  NoDup (books_of l t) -> NoDup (books_of l (m2m_add l ids t)).
Proof.
  intro H. rewrite books_of_add. apply NoDup_app; [exact H| |].
  - apply NoDup_filter, NoDup_dedup.
  - intros b Hb Hb'. apply filter_In in Hb'. destruct Hb' as [_ Hn].
    rewrite negb_true_iff in Hn. apply In_books_of, existsb_pair in Hb.
    rewrite Hb in Hn. discriminate.
Qed.

Lemma In_books_of_add_all (l b : nat) (calls : list (list nat)) (t : Through) :
  In b (books_of l (m2m_add_all l calls t)) <-> In b (books_of l t) \/ In b (List.concat calls).
Proof.
  unfold m2m_add_all. revert t.
  induction calls as [|ids rest IH]; intro t; simpl; [tauto|].
  rewrite IH, In_books_of_add, in_app_iff. tauto.
Qed.

Lemma NoDup_books_of_add_all (l : nat) (calls : list (list nat)) (t : Through) :
  NoDup (books_of l t) -> NoDup (books_of l (m2m_add_all l calls t)).
Proof.
  unfold m2m_add_all. revert t.
  induction calls as [|ids rest IH]; intros t H; simpl; [exact H|].
  apply IH, NoDup_books_of_add, H.
Qed.

Lemma m2m_add_idempotent (l : nat) (ids : list nat) (t : Through) :
  m2m_add l ids (m2m_add l ids t) = m2m_add l ids t.
Proof.
  unfold m2m_add at 1.
  match goal with |- ?t' ++ map _ (filter ?f _) = _ =>
    assert (Hf : filter f (dedup ids) = []) end.
  { rewrite (filter_ext_in _ (fun _ => false)); [apply filter_false|].
    intros b Hb. apply negb_false_iff, existsb_pair.
    unfold m2m_add. apply in_app_iff.
    destruct (existsb (pair_eqb (l, b)) t) eqn:E.
    - left. apply existsb_pair, E.
    - right. apply in_map_iff. exists b. split; [reflexivity|].
      apply filter_In. rewrite E. split; [exact Hb|reflexivity]. }
  rewrite Hf. apply app_nil_r.
Qed.

(** C8: for a library with no books yet, after any sequence of
    [library.books.add(...)] calls its book set is exactly the set of the
    books added, with each book once; two sequences adding the same books
    in any order or multiplicity leave book lists that are permutations of
    each other; and repeating an [add] changes nothing. *)
Theorem C8_library_books_order_independent (l : nat) (t : Through)
    (calls calls' : list (list nat)) :
  books_of l t = [] ->
  (forall b, In b (books_of l (m2m_add_all l calls t)) <-> In b (List.concat calls)) /\
  NoDup (books_of l (m2m_add_all l calls t)) /\
  ((forall b, In b (List.concat calls) <-> In b (List.concat calls')) ->
   Permutation (books_of l (m2m_add_all l calls t)) (books_of l (m2m_add_all l calls' t))) /\
  (forall (ids : list nat) (t' : Through), m2m_add l ids (m2m_add l ids t') = m2m_add l ids t').
Proof.
  intro H0.
  assert (Hmem : forall cs b, In b (books_of l (m2m_add_all l cs t)) <-> In b (List.concat cs)).
  { intros cs b. rewrite In_books_of_add_all, H0. simpl. tauto. }
  assert (Hnd : forall cs, NoDup (books_of l (m2m_add_all l cs t))).
  { intro cs. apply NoDup_books_of_add_all. rewrite H0. constructor. }
  split; [|split; [|split]].
  - apply Hmem.
  - apply Hnd.
  - intro Hsame. apply NoDup_Permutation; [apply Hnd|apply Hnd|].
    intro b. rewrite !Hmem. apply Hsame.
  - apply m2m_add_idempotent.
Qed.

(** C8, witness: adding [3; 1] then [2; 3] to library 7 and adding [2]
    then [1; 3; 1] give the same book set. *)
Lemma C8_library_books_witness :
  books_of 7 [(8, 1)] = [] /\
  Permutation (books_of 7 (m2m_add_all 7 [[3; 1]; [2; 3]] [(8, 1)]))
              (books_of 7 (m2m_add_all 7 [[2]; [1; 3; 1]] [(8, 1)])).
Proof.
  split; [reflexivity|].
  apply (C8_library_books_order_independent 7 [(8, 1)] [[3; 1]; [2; 3]] [[2]; [1; 3; 1]]).
  - reflexivity.
  - intro b. simpl. tauto.
Defined.

Lemma create_profile_users (db db' : UserDB) (u : nat) (r : string) :
  create_profile db u r = Ok db' -> users db' = users db.
Proof.
  unfold create_profile. destruct (profile_of u (profiles db)); intro H;
    [injection H as <-; reflexivity|discriminate].
Qed.

Lemma save_new_user_ok (db db' : UserDB) (u0 u : CustomUser) :
  save_new_user db u0 = Ok (db', u) ->
  u = mkCustomUser (S (Nat.max (user_seq db) (max_user_pk (users db))))
        (email u0) (username u0) (password u0)
        (is_staff u0) (is_superuser u0) (is_active u0) /\
  users db' = users db ++ [u].
Proof.
  unfold save_new_user.
  destruct (existsb _ (users db)); [discriminate|].
  destruct (existsb _ (users db)); [discriminate|].
  unfold post_save_customuser.
  destruct (create_profile _ _ _) as [db2|e] eqn:E; [|discriminate].
  intro H. injection H as <- <-. split; [reflexivity|].
  apply create_profile_users in E. rewrite E. reflexivity.
Qed.

(** C9: [create_user] raises [ValueError] for a missing or empty email and
    then leaves the user table as it was; when it returns a user, the
    email was given and non-empty, the stored row is that user, its email
    is [normalize_email] of the given one and its password is the hash of
    the given password, and it is the one row added. *)
Theorem C9_create_user_contract (make_password : option string -> string)
    (db : UserDB) (em pw : option string) (uname : string) :
  ((em = None \/ em = Some "") ->
     create_user make_password db em pw uname =
       Err (ValueError "The Email field must be set") /\
     users_after make_password db em pw uname = users db) /\
  (forall (db' : UserDB) (u : CustomUser),
     create_user make_password db em pw uname = Ok (db', u) ->
     exists e, em = Some e /\ e <> "" /\
       email u = normalize_email e /\ password u = make_password pw /\
       In u (users db') /\ users db' = users db ++ [u]).
Proof.
  split.
  - intros [-> | ->]; unfold users_after; simpl; split; reflexivity.
  - intros db' u H. destruct em as [[|c rest]|]; try discriminate H.
    exists (String c rest). simpl in H.
    apply save_new_user_ok in H. destruct H as [Hu Hus]. subst u. simpl.
    repeat split; try reflexivity; try discriminate; try exact Hus.
    rewrite Hus. apply in_or_app. right. left. reflexivity.
Qed.

Lemma max_user_pk_ge (us : list CustomUser) (x : nat) :
  In x (map user_pk us) -> (x <= max_user_pk us)%nat.
Proof.
  induction us as [|v rest IH]; simpl; [intros []|].
  intros [H|H]; [subst; apply Nat.le_max_l|].
  apply IH in H. lia.
Qed.

(** C4: when every profile belongs to an existing user, saving a new
    [CustomUser] (every creation path, [create_user] included, ends in
    this save) leaves exactly one [UserProfile] for the new user, with
    role ["member"]. *)
Theorem C4_new_user_has_one_member_profile (db db' : UserDB) (u0 u : CustomUser) :
  (forall p, In p (profiles db) -> In (profile_user p) (map user_pk (users db))) ->
  save_new_user db u0 = Ok (db', u) ->
  In u (users db') /\
  profile_of (user_pk u) (profiles db') = [mkUserProfile (user_pk u) "member"].
Proof.
  intros Hint H.
  assert (Hsv := save_new_user_ok db db' u0 u H). destruct Hsv as [Hu Hus].
  split; [rewrite Hus; apply in_or_app; right; left; reflexivity|].
  revert H. unfold save_new_user.
  destruct (existsb _ (users db)); [discriminate|].
  destruct (existsb _ (users db)); [discriminate|].
  unfold post_save_customuser, create_profile. simpl.
  assert (Hnone : profile_of (S (Nat.max (user_seq db) (max_user_pk (users db))))
                    (profiles db) = []).
  { unfold profile_of.
    rewrite (filter_ext_in _ (fun _ => false)); [apply filter_false|].
    intros p Hp. apply Nat.eqb_neq. intro Heq.
    apply Hint, max_user_pk_ge in Hp. lia. }
  rewrite Hnone. intro H. injection H as <- <-. simpl.
  unfold profile_of in *. rewrite filter_app, Hnone. simpl.
  rewrite Nat.eqb_refl. reflexivity.
Qed.

(** C4, witness: the first user saved into empty tables gets its member
    profile. *)
Lemma C4_member_profile_witness :
  profile_of 1 (profiles (fst (match save_new_user (mkUserDB [] [] 0)
                                     (mkCustomUser 0 "a@b.org" "a" "h" false false true) with
                               | Ok p => p
                               | Err _ => (mkUserDB [] [] 0,
                                           mkCustomUser 0 "" "" "" false false true)
                               end))) = [mkUserProfile 1 "member"].
Proof.
  exact (proj2 (C4_new_user_has_one_member_profile (mkUserDB [] [] 0)
    (mkUserDB [mkCustomUser 1 "a@b.org" "a" "h" false false true]
              [mkUserProfile 1 "member"] 1)
    (mkCustomUser 0 "a@b.org" "a" "h" false false true)
    (mkCustomUser 1 "a@b.org" "a" "h" false false true)
    (fun p (Hp : In p []) => match Hp with end) eq_refl)).
Defined.

(** C9, witness: an empty email is refused; a mixed-case domain is
    stored lower-cased. *)
Lemma C9_create_user_witness :
  create_user (fun _ => "hash") (mkUserDB [] [] 0) (Some "") (Some "pw") "a" =
    Err (ValueError "The Email field must be set") /\
  (exists e, Some "a@EX.org" = Some e /\ e <> "" /\
     email (mkCustomUser 1 "a@ex.org" "a" "hash" false false true) = normalize_email e /\
     password (mkCustomUser 1 "a@ex.org" "a" "hash" false false true) = (fun _ => "hash") (Some "pw") /\
     In (mkCustomUser 1 "a@ex.org" "a" "hash" false false true)
        (users (mkUserDB [mkCustomUser 1 "a@ex.org" "a" "hash" false false true] [mkUserProfile 1 "member"] 1)) /\
     users (mkUserDB [mkCustomUser 1 "a@ex.org" "a" "hash" false false true] [mkUserProfile 1 "member"] 1) =
       users (mkUserDB [] [] 0) ++ [mkCustomUser 1 "a@ex.org" "a" "hash" false false true]).
Proof.
  split.
  - exact (proj1 (proj1 (C9_create_user_contract (fun _ => "hash") (mkUserDB [] [] 0)
             (Some "") (Some "pw") "a") (or_intror eq_refl))).
  - exact (proj2 (C9_create_user_contract (fun _ => "hash") (mkUserDB [] [] 0)
             (Some "a@EX.org") (Some "pw") "a")
             (mkUserDB [mkCustomUser 1 "a@ex.org" "a" "hash" false false true] [mkUserProfile 1 "member"] 1)
             (mkCustomUser 1 "a@ex.org" "a" "hash" false false true) eq_refl).
Defined.

End RelationshipFacts.

Module BookshelfFacts.
Import Bookshelf.

Lemma lstrip_empty (s : string) : Api.lstrip s = "" <-> all_space s = true.
Proof.
  induction s as [|c r IH]; simpl; [tauto|].
  unfold all_space in *. simpl. destruct (Api.is_space c); simpl; [exact IH|].
  split; discriminate.
Qed.

Lemma all_space_lstrip (s : string) : all_space (Api.lstrip s) = all_space s.
Proof.
  induction s as [|c r IH]; simpl; [reflexivity|].
  destruct (Api.is_space c) eqn:E; [|reflexivity].
  rewrite IH. unfold all_space. simpl. rewrite E. reflexivity.
Qed.

Lemma rev_string_empty (s acc : string) : Api.rev_string s acc = "" -> s = "" /\ acc = "".
Proof.
  revert acc. induction s as [|c r IH]; intros acc H; simpl in H; [split; [reflexivity|exact H]|].
  apply IH in H. destruct H as [_ H]. discriminate.
Qed.

Lemma all_space_rev (s acc : string) :
  all_space (Api.rev_string s acc) = all_space s && all_space acc.
Proof.
  revert acc. induction s as [|c r IH]; intro acc; simpl; [reflexivity|].
  rewrite IH. unfold all_space. simpl. destruct (Api.is_space c); simpl;
    [reflexivity|apply andb_false_r].
Qed.

(** [search_query] is empty exactly when the parameter is absent, empty
    or whitespace only. *)
Lemma py_strip_empty (s : string) : Api.py_strip s = "" <-> all_space s = true.
Proof.
  unfold Api.py_strip. split.
  - intro H. apply rev_string_empty in H. destruct H as [H _].
    apply lstrip_empty in H. rewrite all_space_rev, all_space_lstrip in H.
    rewrite andb_true_r in H. exact H.
  - intro H. assert (H' : Api.lstrip (Api.rev_string (Api.lstrip s) "") = "").
    { apply lstrip_empty. rewrite all_space_rev, all_space_lstrip, H. reflexivity. }
    rewrite H'. reflexivity.
Qed.

Lemma prefixb_spec (p s : string) :
  prefixb p s = true <-> exists suf, s = String.append p suf.
Proof.
  revert s. induction p as [|c p IH]; intro s; simpl.
  - split; [intros _; exists s; reflexivity|reflexivity].
  - destruct s as [|d s]; simpl.
    + split; [discriminate|intros [suf H]; discriminate].
    + rewrite andb_true_iff, IH, Ascii.eqb_eq. split.
      * intros [-> [suf ->]]. exists suf. reflexivity.
      * intros [suf H]. injection H as -> ->. split; [reflexivity|exists suf; reflexivity].
Qed.

Lemma containsb_spec (n h : string) :
  containsb n h = true <->
  exists pre suf, h = String.append pre (String.append n suf).
Proof.
  induction h as [|c r IH]; simpl.
  - rewrite orb_false_r, prefixb_spec. split.
    + intros [suf H]. exists "", suf. exact H.
    + intros [pre [suf H]]. destruct pre; [exists suf; exact H|discriminate].
  - rewrite orb_true_iff, prefixb_spec, IH. split.
    + intros [[suf H]|[pre [suf H]]].
      * exists "", suf. exact H.
      * exists (String c pre), suf. rewrite H. reflexivity.
    + intros [pre [suf H]]. destruct pre as [|c' pre].
      * left. exists suf. exact H.
      * right. injection H as -> H. exists pre, suf. exact H.
Qed.

Lemma icontains_spec (field value : string) :
  icontains field value = true <-> ci_substring_spec value field.
Proof. unfold icontains, ci_substring_spec. apply containsb_spec. Qed.

(** C10: whenever [book_list] renders, its [search_query] is the stripped
    [search] parameter (the empty string when absent); when that parameter
    is absent, empty or whitespace only the rendered books are all books;
    otherwise a book is rendered exactly when its title or its author
    contains the stripped search string, ignoring case. Without the
    [can_view_book] permission the view raises [PermissionDenied]. *)
Theorem C10_book_list_search (r : Request) (all_books : list Book) :
  match book_list r all_books with
  | Rendered bs q =>
      q = Api.py_strip (Api.qd_get "search" "" (GET r)) /\
      (all_space (Api.qd_get "search" "" (GET r)) = true -> bs = all_books) /\
      (all_space (Api.qd_get "search" "" (GET r)) = false ->
         forall b, In b bs <-> In b all_books /\
           (ci_substring_spec q (title b) \/ ci_substring_spec q (author b)))
  | PermissionDenied => Api.str_in "bookshelf.can_view_book" (user_perms r) = false
  end.
Proof.
  unfold book_list.
  destruct (Api.str_in "bookshelf.can_view_book" (user_perms r)); simpl; [|reflexivity].
  set (q := Api.py_strip (Api.qd_get "search" "" (GET r))).
  assert (Hq : String.eqb q "" = all_space (Api.qd_get "search" "" (GET r))).
  { destruct (String.eqb q "") eqn:E, (all_space (Api.qd_get "search" "" (GET r))) eqn:F;
      try reflexivity.
    - apply String.eqb_eq, py_strip_empty in E. rewrite E in F. discriminate.
    - apply py_strip_empty in F. fold q in F. rewrite F in E. discriminate. }
  rewrite Hq. split; [reflexivity|split].
  - intro H. rewrite H. reflexivity.
  - intros H b. rewrite H, filter_In, orb_true_iff, !icontains_spec. tauto.
Qed.

(** C10, witness: searching for [" django "] keeps the book whose title
    mentions Django, ignoring case. *)
Lemma C10_book_list_witness :
  In (mkBook "Django for APIs" "W. Vincent" 2020)
     [mkBook "Django for APIs" "W. Vincent" 2020] <->
  In (mkBook "Django for APIs" "W. Vincent" 2020)
     [mkBook "Django for APIs" "W. Vincent" 2020; mkBook "Rust" "S. Klabnik" 2019] /\
  (ci_substring_spec "django" "Django for APIs" \/ ci_substring_spec "django" "W. Vincent").
Proof.
  exact (proj2 (proj2 (C10_book_list_search
    (mkRequest ["bookshelf.can_view_book"] [("search", " django ")])
    [mkBook "Django for APIs" "W. Vincent" 2020; mkBook "Rust" "S. Klabnik" 2019]))
    eq_refl (mkBook "Django for APIs" "W. Vincent" 2020)).
Defined.

End BookshelfFacts.

Module ApiExtra.
Import Api ApiFacts.

Lemma handle_rows (pg : Pagination) (cy : Z) (v : View) (r : Request) (db : DB) (row : Book) :
  In row (books (snd (handle pg cy v r db))) -> In row (books db) \/ publication_year row <= cy.
Proof.
  unfold handle, BookSerializer_create, BookSerializer_update.
  repeat match goal with
  | |- context [match ?x with _ => _ end] => let E := fresh "E" in destruct x eqn:E
  end; simpl; try (intro H; left; exact H);
  try (match goal with
       | E : Book_save _ _ _ = Ok (_, _) |- _ =>
           apply Book_save_ok in E; destruct E as [Hy Hrows];
           intro H; destruct (Hrows row H) as [Ho|He]; [left; exact Ho|right; lia]
       end);
  try (intro H; apply filter_In in H; left; tauto).
Qed.

(** X1: whatever the pagination, the view, the requester or the method, a
    request never stores a book whose [publication_year] is after the
    current year: every row after the request was already there or
    respects the bound. *)
Theorem dispatch_never_stores_future_year (pg : Pagination) (cy : Z) (v : View)
    (r : Request) (db : DB) :
  Forall (fun row => In row (books db) \/ publication_year row <= cy)
    (books (snd (dispatch pg cy v r db))).
Proof.
  apply Forall_forall. intros row. unfold dispatch.
  destruct (content_negotiation r); [simpl; intro H; left; exact H|].
  destruct (auth_error r); [simpl; intro H; left; exact H|].
  destruct (check_permissions v r); [simpl; intro H; left; exact H|].
  destruct (str_in (method r) (view_methods v)); [apply handle_rows|].
  simpl; intro H; left; exact H.
Qed.

(** X2: GET, HEAD and OPTIONS requests never change the tables, on any
    view, for any requester and with any pagination. *)
Theorem read_methods_do_not_write (pg : Pagination) (cy : Z) (v : View) (r : Request)
    (db : DB) :
  In (method r) ["GET"; "HEAD"; "OPTIONS"] -> snd (dispatch pg cy v r db) = db.
Proof.
  destruct r as [m u ha ah q d acc ae de]. simpl. intros Hm.
  unfold dispatch.
  destruct (content_negotiation _); [reflexivity|].
  destruct ae; [reflexivity|].
  destruct Hm as [<-|[<-|[<-|[]]]]; destruct v;
    destruct (check_permissions _ _); try reflexivity;
    unfold str_in, view_methods; simpl; try reflexivity;
    unfold handle; simpl;
    repeat match goal with
    | |- context [match ?x with _ => _ end] => destruct x
    end; reflexivity.
Qed.

Lemma read_methods_do_not_write_witness :
  In "HEAD" ["GET"; "HEAD"; "OPTIONS"] /\
  snd (dispatch NoPagination 2026 (BookDetailView 1)
         (mkRequest "HEAD" None false false [] (mkBookInput None None None)
            [("*", "*")] None None)
         (mkDB [mkAuthor 1 "Ann"] [mkBook (Some 1%nat) "Notes" 2001 1] 1)) =
  mkDB [mkAuthor 1 "Ann"] [mkBook (Some 1%nat) "Notes" 2001 1] 1.
Proof.
  split; [simpl; auto|].
  apply read_methods_do_not_write. simpl. right; left; reflexivity.
Defined.

Lemma check_permissions_auth (v : View) (r : Request) :
  user_authenticated r = true -> check_permissions v r = None.
Proof.
  unfold user_authenticated, check_permissions. intro H.
  destruct (user r) as [u|] eqn:E; [|discriminate].
  destruct v; cbn [permission_classes forallb has_permission];
    unfold IsAuthenticated_has_permission, IsAuthenticatedForWrite_has_permission;
    rewrite ?E; try destruct (str_in _ _); simpl; rewrite ?H; reflexivity.
Qed.

(** Once content negotiation passes and the requester is authenticated,
    [dispatch] runs the handler of any method the view defines. *)
Lemma dispatch_authed (pg : Pagination) (cy : Z) (v : View) (r : Request) (db : DB) :
  content_negotiation r = None -> authenticated r = true ->
  str_in (method r) (view_methods v) = true ->
  dispatch pg cy v r db = handle pg cy v r db.
Proof.
  intros Hc Ha Hm. unfold authenticated in Ha. unfold dispatch. rewrite Hc.
  destruct (auth_error r); [discriminate|].
  rewrite check_permissions_auth by exact Ha. rewrite Hm. reflexivity.
Qed.



(** X4: the detail endpoint [books/<pk>/] defines only GET (and HEAD,
    OPTIONS): a POST, PUT, PATCH or DELETE there that passes content
    negotiation and authentication (no authenticator raised) is answered
    405 for any user, authenticated or not, and changes nothing. *)
Theorem detail_view_rejects_writes (pg : Pagination) (cy : Z) (k : nat) (r : Request)
    (db : DB) :
  content_negotiation r = None -> auth_error r = None ->
  In (method r) ["POST"; "PUT"; "PATCH"; "DELETE"] ->
  dispatch pg cy (BookDetailView k) r db = (mkResponse 405 [], db).
Proof.
  destruct r as [m u ha ah q d acc ae de]. intros Hc Ha Hm.
  simpl in Ha, Hm. subst ae. unfold dispatch. rewrite Hc.
  destruct Hm as [<-|[<-|[<-|[<-|[]]]]]; reflexivity.
Qed.

Lemma detail_view_rejects_writes_witness :
  dispatch NoPagination 2026 (BookDetailView 1)
    (mkRequest "PUT" (Some (mkPyUser true)) true true [] (mkBookInput (Some "X") None None)
       [("*", "*")] None None)
    (mkDB [] [] 0) = (mkResponse 405 [], mkDB [] [] 0).
Proof.
  apply detail_view_rejects_writes.
  - reflexivity.
  - reflexivity.
  - simpl. right; left; reflexivity.
Defined.

Lemma validate_future_err (cy : Z) (auths : list Author) (partial : bool) (d : BookInput)
    (y : Z) :
  in_publication_year d = Some y -> cy < y ->
  exists e, BookSerializer_validate cy auths partial d = Err e.
Proof.
  destruct d as [t y0 a]. simpl. intros -> Hy.
  assert (Hr : rejected_on_year
                 (BookSerializer_validate cy auths partial (mkBookInput t (Some y) a)))
    by (apply serializer_year_key; left; exact Hy).
  destruct (BookSerializer_validate _ _ _ _) as [x|e]; [contradiction|exists e; reflexivity].
Qed.

(** X5: an authenticated write that passes content negotiation, whose
    body parses, and that supplies a [publication_year] after the current
    year is answered 400 and changes nothing: a POST on [books/], and a
    PUT or PATCH on [books/<pk>/update/] of an existing book. *)
Theorem future_year_write_is_400 (pg : Pagination) (cy y : Z) (k : nat) (r : Request)
    (db : DB) :
  authenticated r = true -> content_negotiation r = None -> data_error r = None ->
  in_publication_year (data r) = Some y -> cy < y ->
  (method r = "POST" ->
     dispatch pg cy BookListCreateView r db = (mkResponse 400 [], db)) /\
  (In (method r) ["PUT"; "PATCH"] -> get_object db k <> None ->
     dispatch pg cy (BookUpdateView k) r db = (mkResponse 400 [], db)).
Proof.
  intros Hu Hc Hde Hd Hy. split.
  - intros Hm. rewrite dispatch_authed by (try assumption; rewrite Hm; reflexivity).
    unfold handle. rewrite Hm, Hde.
    destruct (validate_future_err cy (authors db) false (data r) y Hd Hy) as [e He].
    rewrite He. reflexivity.
  - intros Hm Ho. destruct (get_object db k) as [inst|] eqn:Eo; [|contradiction].
    destruct Hm as [Hm|[Hm|[]]]; symmetry in Hm;
      (rewrite dispatch_authed by (try assumption; rewrite Hm; reflexivity));
      unfold handle; rewrite Hm, Eo, Hde;
      cbn -[BookSerializer_validate BookSerializer_update];
      [destruct (validate_future_err cy (authors db) false (data r) y Hd Hy) as [e He]
      |destruct (validate_future_err cy (authors db) true (data r) y Hd Hy) as [e He]];
      rewrite He; reflexivity.
Qed.

Lemma future_year_write_is_400_witness :
  dispatch NoPagination 2026 BookListCreateView
    (mkRequest "POST" (Some (mkPyUser true)) true true []
       (mkBookInput (Some "Later") (Some 2100) (Some 1%nat)) [("*", "*")] None None)
    (mkDB [mkAuthor 1 "Ann"] [] 0) = (mkResponse 400 [], mkDB [mkAuthor 1 "Ann"] [] 0).
Proof.
  refine (proj1 (future_year_write_is_400 NoPagination 2026 2100 1
    (mkRequest "POST" (Some (mkPyUser true)) true true []
       (mkBookInput (Some "Later") (Some 2100) (Some 1%nat)) [("*", "*")] None None)
    (mkDB [mkAuthor 1 "Ann"] [] 0) eq_refl eq_refl eq_refl eq_refl _) eq_refl).
  lia.
Defined.

Lemma author_exists (auths : list Author) (a : nat) :
  In a (map author_pk auths) -> existsb (fun x => Nat.eqb (author_pk x) a) auths = true.
Proof.
  intro Ha. apply existsb_exists. apply in_map_iff in Ha. destruct Ha as [x [Hx Hin]].
  exists x. split; [exact Hin|apply Nat.eqb_eq; exact Hx].
Qed.

Lemma title_field_ok (t : string) :
  py_strip t <> "" -> (String.length (py_strip t) <= 200)%nat ->
  has_null (py_strip t) = false -> title_field t = Ok (py_strip t).
Proof.
  intros H1 H2 H3. unfold title_field. cbv zeta.
  rewrite (proj2 (String.eqb_neq _ _) H1), (proj2 (Nat.ltb_ge _ _) H2), H3.
  reflexivity.
Qed.

Lemma year_not_future (cy y : Z) : y <= cy -> (y >? cy) = false.
Proof. intro H. rewrite Z.gtb_ltb. apply Z.ltb_ge. exact H. Qed.

Lemma year_field_ok (cy y : Z) :
  int_min <= y <= cy -> cy <= int_max -> year_field cy y = Ok y.
Proof.
  intros Hy Hcy. unfold year_field. rewrite range_errors_nil by lia.
  unfold validate_publication_year. rewrite year_not_future by lia. reflexivity.
Qed.

Lemma author_field_ok (auths : list Author) (a : nat) :
  In a (map author_pk auths) -> author_field auths a = Ok a.
Proof. intro Ha. unfold author_field. rewrite author_exists by exact Ha. reflexivity. Qed.

Lemma validate_all_ok (cy : Z) (auths : list Author) (partial : bool) (t : string)
    (y : Z) (a : nat) :
  py_strip t <> "" -> (String.length (py_strip t) <= 200)%nat ->
  has_null (py_strip t) = false ->
  int_min <= y <= cy -> cy <= int_max -> In a (map author_pk auths) ->
  BookSerializer_validate cy auths partial (mkBookInput (Some t) (Some y) (Some a)) =
  Ok (mkBookData (Some (py_strip t)) (Some y) (Some a)).
Proof.
  intros H1 H2 H3 Hy Hcy Ha. unfold BookSerializer_validate, run_field.
  cbn -[title_field year_field author_field].
  rewrite title_field_ok, year_field_ok, author_field_ok by assumption.
  reflexivity.
Qed.

Lemma validate_title_ok (cy : Z) (auths : list Author) (t : string) :
  py_strip t <> "" -> (String.length (py_strip t) <= 200)%nat ->
  has_null (py_strip t) = false ->
  BookSerializer_validate cy auths true (mkBookInput (Some t) None None) =
  Ok (mkBookData (Some (py_strip t)) None None).
Proof.
  intros H1 H2 H3. unfold BookSerializer_validate, run_field.
  cbn -[title_field]. rewrite title_field_ok by assumption. reflexivity.
Qed.

Lemma full_clean_nil (cy : Z) (auths : list Author) (b : Book) :
  (forall k, pk b = Some k -> Z.of_nat k <= int_max) ->
  title b <> "" -> (String.length (title b) <= 200)%nat ->
  int_min <= publication_year b <= cy -> cy <= int_max ->
  In (author_id b) (map author_pk auths) ->
  Book_full_clean cy auths b = [].
Proof.
  intros Hk Ht Hl Hy Hcy Ha.
  unfold Book_full_clean, Book_clean_fields, Book_clean.
  assert (Hid : match pk b with
                | Some k => map (fun m => ("id", m)) (range_errors (Z.of_nat k))
                | None => []
                end = []).
  { destruct (pk b) as [k|] eqn:E; [|reflexivity].
    specialize (Hk k eq_refl).
    rewrite range_errors_nil; [reflexivity|]. unfold int_min. lia. }
  rewrite Hid, (proj2 (String.eqb_neq _ _) Ht), (proj2 (Nat.ltb_ge _ _) Hl).
  rewrite range_errors_nil by lia. rewrite author_exists by exact Ha.
  rewrite year_not_future by lia. reflexivity.
Qed.

Lemma max_book_pk_ge (bs : list Book) (x : Book) (j : nat) :
  In x bs -> pk x = Some j -> (j <= max_book_pk bs)%nat.
Proof.
  induction bs as [|b rest IH]; simpl; [intros []|].
  intros [<-|Hin] Hj.
  - rewrite Hj. apply Nat.le_max_l.
  - specialize (IH Hin Hj). destruct (pk b); lia.
Qed.

(** X6: an authenticated POST on [books/] that passes content negotiation,
    whose body parses, with a title that is not blank once stripped, has
    at most 200 characters and no NUL, a year between the [IntegerField]
    minimum and the current year and an existing author is answered 201
    with the new book, stored with the stripped title and appended under a
    primary key one more than the larger of the key sequence and the
    largest key present: larger than every key the table holds or held. *)
Theorem create_valid_book (pg : Pagination) (cy y : Z) (t : string) (a : nat)
    (r : Request) (db : DB) :
  authenticated r = true -> content_negotiation r = None -> data_error r = None ->
  method r = "POST" -> data r = mkBookInput (Some t) (Some y) (Some a) ->
  py_strip t <> "" -> (String.length (py_strip t) <= 200)%nat ->
  has_null (py_strip t) = false ->
  int_min <= y <= cy -> cy <= int_max ->
  In a (map author_pk (authors db)) ->
  let k := S (Nat.max (book_seq db) (max_book_pk (books db))) in
  let b := mkBook (Some k) (py_strip t) y a in
  dispatch pg cy BookListCreateView r db =
    (mkResponse 201 [b], mkDB (authors db) (books db ++ [b]) k) /\
  (book_seq db < k)%nat /\
  (forall x j, In x (books db) -> pk x = Some j -> (j < k)%nat).
Proof.
  intros Hu Hc Hde Hm Hd H1 H2 H3 Hy Hcy Ha k b.
  split; [|split].
  - rewrite dispatch_authed by (try assumption; rewrite Hm; reflexivity).
    unfold handle. rewrite Hm, Hde, Hd.
    rewrite validate_all_ok by assumption.
    unfold BookSerializer_create, Book_save. cbn [v_title v_publication_year v_author].
    rewrite full_clean_nil; [reflexivity|..]; cbn [pk title publication_year author_id];
      try assumption.
    intros j Hj. discriminate.
  - unfold k. lia.
  - intros x j Hx Hj. apply (max_book_pk_ge (books db) x j Hx) in Hj. unfold k. lia.
Qed.

Lemma create_valid_book_witness :
  dispatch NoPagination 2026 BookListCreateView
    (mkRequest "POST" (Some (mkPyUser true)) true true []
       (mkBookInput (Some " New ") (Some 2020) (Some 1%nat)) [("*", "*")] None None)
    (mkDB [mkAuthor 1 "Ann"] [mkBook (Some 4%nat) "Old" 1999 1] 6) =
  (mkResponse 201 [mkBook (Some 7%nat) "New" 2020 1],
   mkDB [mkAuthor 1 "Ann"] [mkBook (Some 4%nat) "Old" 1999 1; mkBook (Some 7%nat) "New" 2020 1]
        7).
Proof.
  refine (proj1 (create_valid_book NoPagination 2026 2020 " New " 1
    (mkRequest "POST" (Some (mkPyUser true)) true true []
       (mkBookInput (Some " New ") (Some 2020) (Some 1%nat)) [("*", "*")] None None)
    (mkDB [mkAuthor 1 "Ann"] [mkBook (Some 4%nat) "Old" 1999 1] 6)
    eq_refl eq_refl eq_refl eq_refl eq_refl _ _ eq_refl _ _ _)).
  - discriminate.
  - simpl. lia.
  - unfold int_min. lia.
  - unfold int_max. lia.
  - simpl. left. reflexivity.
Defined.

Lemma get_object_some (db : DB) (k : nat) (inst : Book) :
  get_object db k = Some inst -> In inst (books db) /\ pk inst = Some k.
Proof.
  unfold get_object. intro H. apply find_some in H. destruct H as [Hin Hk].
  split; [exact Hin|]. destruct (pk inst) as [k'|]; [|discriminate].
  apply Nat.eqb_eq in Hk. subst. reflexivity.
Qed.

(** X7: an authenticated PATCH on [books/<pk>/update/] that passes content
    negotiation, whose body parses, and that supplies only a title (not
    blank once stripped, at most 200 characters, no NUL) answers 200 and
    rewrites that book's title in place with the stripped text, keeping
    its year, author and primary key, every other row and the key
    sequence; the stored year, author and key must still pass
    [full_clean]. *)
Theorem patch_title_keeps_other_fields (pg : Pagination) (cy : Z) (k : nat) (t : string)
    (inst : Book) (r : Request) (db : DB) :
  authenticated r = true -> content_negotiation r = None -> data_error r = None ->
  method r = "PATCH" -> data r = mkBookInput (Some t) None None ->
  py_strip t <> "" -> (String.length (py_strip t) <= 200)%nat ->
  has_null (py_strip t) = false ->
  get_object db k = Some inst ->
  int_min <= publication_year inst <= cy -> cy <= int_max -> Z.of_nat k <= int_max ->
  In (author_id inst) (map author_pk (authors db)) ->
  let b := mkBook (Some k) (py_strip t) (publication_year inst) (author_id inst) in
  dispatch pg cy (BookUpdateView k) r db =
    (mkResponse 200 [b],
     mkDB (authors db)
       (map (fun x => match pk x with
                      | Some k' => if Nat.eqb k k' then b else x
                      | None => x end) (books db))
       (book_seq db)).
Proof.
  intros Hu Hc Hde Hm Hd H1 H2 H3 Ho Hy Hcy Hk Ha b.
  destruct (get_object_some db k inst Ho) as [Hin Hpk].
  assert (Hrow : existsb (fun x => match pk x with Some k' => Nat.eqb k k' | None => false end)
                   (books db) = true).
  { apply existsb_exists. exists inst. split; [exact Hin|rewrite Hpk; apply Nat.eqb_refl]. }
  rewrite dispatch_authed by (try assumption; rewrite Hm; reflexivity).
  unfold handle. rewrite Hm, Ho, Hde, Hd.
  cbn -[BookSerializer_validate BookSerializer_update].
  rewrite validate_title_ok by assumption.
  unfold BookSerializer_update, Book_save. cbn [v_title v_publication_year v_author].
  rewrite Hpk.
  rewrite full_clean_nil; cbn [pk title publication_year author_id]; try assumption.
  - unfold save_row. cbn [pk]. rewrite Hrow. reflexivity.
  - intros j Hj. injection Hj as <-. exact Hk.
Qed.

Lemma patch_title_keeps_other_fields_witness :
  dispatch NoPagination 2026 (BookUpdateView 2)
    (mkRequest "PATCH" (Some (mkPyUser true)) true true []
       (mkBookInput (Some "Renamed") None None) [("*", "*")] None None)
    (mkDB [mkAuthor 1 "Ann"] [mkBook (Some 1%nat) "A" 2000 1; mkBook (Some 2%nat) "B" 2010 1]
          2) =
  (mkResponse 200 [mkBook (Some 2%nat) "Renamed" 2010 1],
   mkDB [mkAuthor 1 "Ann"]
        [mkBook (Some 1%nat) "A" 2000 1; mkBook (Some 2%nat) "Renamed" 2010 1] 2).
Proof.
  refine (patch_title_keeps_other_fields NoPagination 2026 2 "Renamed"
    (mkBook (Some 2%nat) "B" 2010 1)
    (mkRequest "PATCH" (Some (mkPyUser true)) true true []
       (mkBookInput (Some "Renamed") None None) [("*", "*")] None None)
    (mkDB [mkAuthor 1 "Ann"] [mkBook (Some 1%nat) "A" 2000 1; mkBook (Some 2%nat) "B" 2010 1]
          2)
    eq_refl eq_refl eq_refl eq_refl eq_refl _ _ eq_refl eq_refl _ _ _ _).
  - discriminate.
  - simpl. lia.
  - simpl. unfold int_min. lia.
  - unfold int_max. lia.
  - unfold int_max. lia.
  - simpl. left. reflexivity.
Defined.

(** X15: content negotiation runs first, on every endpoint, for every
    method, requester and authentication outcome, and changes nothing: a
    [?format=] naming no renderer (neither [json] nor [api]) is answered
    404; without [?format=], an Accept header none of whose media ranges
    matches [application/json] or [text/html] is answered 406; a request
    without [?format=] or with [?format=json] that accepts [*/*],
    [application/*] or [application/json] passes it. *)
Theorem content_negotiation_first (pg : Pagination) (cy : Z) (v : View) (r : Request)
    (db : DB) :
  (qd_get "format" "" (query_params r) <> "" ->
   qd_get "format" "" (query_params r) <> "json" ->
   qd_get "format" "" (query_params r) <> "api" ->
   dispatch pg cy v r db = (mkResponse 404 [], db)) /\
  (qd_get "format" "" (query_params r) = "" ->
   (forall tok, In tok (accept r) ->
      media_type_matches ("application", "json") tok = false /\
      media_type_matches ("text", "html") tok = false) ->
   dispatch pg cy v r db = (mkResponse 406 [], db)) /\
  (In (qd_get "format" "" (query_params r)) [""; "json"] ->
   In ("*", "*") (accept r) \/ In ("application", "*") (accept r) \/
   In ("application", "json") (accept r) ->
   content_negotiation r = None).
Proof.
  split; [|split].
  - intros H1 H2 H3. unfold dispatch, content_negotiation.
    remember (qd_get "format" "" (query_params r)) as f eqn:Ef.
    rewrite (proj2 (String.eqb_neq f "") H1).
    unfold renderer_classes. cbn [filter renderer_format].
    rewrite (proj2 (String.eqb_neq "json" f)) by congruence.
    rewrite (proj2 (String.eqb_neq "api" f)) by congruence.
    reflexivity.
  - intros Hf Hacc. unfold dispatch, content_negotiation. rewrite Hf.
    unfold renderer_classes. cbn [String.eqb].
    match goal with |- context [existsb ?p (accept r)] =>
      replace (existsb p (accept r)) with false end; [reflexivity|].
    symmetry. destruct (existsb _ (accept r)) eqn:E; [|reflexivity].
    apply existsb_exists in E. destruct E as [tok [Hin Htok]].
    destruct (Hacc tok Hin) as [Hj Hh].
    cbn [existsb renderer_media_type] in Htok. rewrite Hj, Hh in Htok. discriminate.
  - intros Hf Hacc. unfold content_negotiation.
    destruct Hf as [Hf|[Hf|[]]]; rewrite <- Hf; unfold renderer_classes;
      cbn [String.eqb filter renderer_format];
      (match goal with |- context [existsb ?p (accept r)] =>
         replace (existsb p (accept r)) with true; [reflexivity|] end);
      symmetry; apply existsb_exists;
      destruct Hacc as [H|[H|H]]; (eexists; split; [exact H|reflexivity]).
Qed.

Lemma content_negotiation_first_witness :
  dispatch NoPagination 2026 (BookDeleteView 1)
    (mkRequest "DELETE" None true true [("format", "xml")] (mkBookInput None None None)
       [("*", "*")] (Some AuthenticationFailed) None)
    (mkDB [mkAuthor 1 "Ann"] [mkBook (Some 1%nat) "Notes" 2001 1] 1) =
  (mkResponse 404 [], mkDB [mkAuthor 1 "Ann"] [mkBook (Some 1%nat) "Notes" 2001 1] 1).
Proof.
  apply (proj1 (content_negotiation_first NoPagination 2026 (BookDeleteView 1)
    (mkRequest "DELETE" None true true [("format", "xml")] (mkBookInput None None None)
       [("*", "*")] (Some AuthenticationFailed) None)
    (mkDB [mkAuthor 1 "Ann"] [mkBook (Some 1%nat) "Notes" 2001 1] 1))); discriminate.
Defined.

Lemma num_pages_spec (c n : nat) : (0 < n)%nat ->
  (1 <= num_pages c n)%nat /\ (c <= num_pages c n * n)%nat /\
  ((num_pages c n - 1) * n < Nat.max 1 c)%nat.
Proof.
  intros Hn. unfold num_pages.
  pose proof (Nat.div_mod (Nat.max 1 c + n - 1) n ltac:(lia)) as Hd.
  pose proof (Nat.mod_upper_bound (Nat.max 1 c + n - 1) n ltac:(lia)) as Hm.
  set (q := ((Nat.max 1 c + n - 1) / n)%nat) in *.
  set (rm := ((Nat.max 1 c + n - 1) mod n)%nat) in *.
  assert (Hmx : (1 <= Nat.max 1 c /\ c <= Nat.max 1 c)%nat) by lia.
  split; [|split]; nia.
Qed.

(** X16: with [PageNumberPagination] and a positive page size,
    [?page=last] gives the last page: a tail of the queryset, of at most
    a page size, and not empty when the queryset is not. *)
Theorem last_page_is_tail (n : nat) (r : Request) (bs : list Book) :
  (0 < n)%nat -> qd_get "page" "" (query_params r) = "last" ->
  exists p, paginate_queryset (PageNumberPagination (Some n)) r bs = Page p /\
    (exists pre, bs = pre ++ p) /\ (List.length p <= n)%nat /\ (bs <> [] -> p <> []).
Proof.
  intros Hn Hq. destruct n as [|n']; [lia|].
  destruct (num_pages_spec (List.length bs) (S n') Hn) as [H1 [H2 H3]].
  remember (num_pages (List.length bs) (S n')) as np eqn:Enp.
  assert (Hlen : (List.length (skipn ((np - 1) * S n') bs) <= S n')%nat)
    by (rewrite length_skipn; nia).
  exists (skipn ((np - 1) * S n') bs).
  split; [|split; [|split]].
  - cbn [paginate_queryset]. unfold page_number_paginate. cbv zeta. rewrite Hq.
    rewrite <- Enp. cbn [String.eqb Ascii.eqb Bool.eqb].
    replace ((Z.of_nat np <? 1) || (Z.of_nat np <? Z.of_nat np)) with false
      by (symmetry; apply orb_false_iff; split; apply Z.ltb_ge; lia).
    replace (Z.to_nat (Z.of_nat np - 1)) with (np - 1)%nat by lia.
    rewrite firstn_all2 by exact Hlen. reflexivity.
  - exists (firstn ((np - 1) * S n') bs). symmetry. apply firstn_skipn.
  - exact Hlen.
  - intros Hne Hp. apply (f_equal (@List.length Book)) in Hp.
    rewrite length_skipn in Hp. simpl in Hp.
    destruct bs as [|x rest]; [contradiction|]. simpl List.length in *. lia.
Qed.

Lemma last_page_is_tail_witness :
  exists p, paginate_queryset (PageNumberPagination (Some 2%nat))
      (mkRequest "GET" None true true [("page", "last")] (mkBookInput None None None)
         [("*", "*")] None None)
      [mkBook (Some 1%nat) "A" 2000 1; mkBook (Some 2%nat) "B" 2001 1;
       mkBook (Some 3%nat) "C" 2002 1] = Page p /\
    (exists pre, [mkBook (Some 1%nat) "A" 2000 1; mkBook (Some 2%nat) "B" 2001 1;
                  mkBook (Some 3%nat) "C" 2002 1] = pre ++ p) /\
    (List.length p <= 2)%nat /\
    ([mkBook (Some 1%nat) "A" 2000 1; mkBook (Some 2%nat) "B" 2001 1;
      mkBook (Some 3%nat) "C" 2002 1] <> [] -> p <> []).
Proof.
  apply last_page_is_tail.
  - lia.
  - reflexivity.
Defined.

End ApiExtra.
Module RelationshipExtra.
Import Relationship RelationshipFacts.
Local Open Scope nat_scope.

(** X8: [create_superuser] stores its flags. With [is_staff] and
    [is_superuser] left to their defaults, a successful call stores and
    returns a user with the given username, [is_staff] and [is_superuser]
    true and [is_active] as given (true by default), where a successful
    [create_user] stores the model defaults (false, false, true); a flag
    explicitly set to anything but [True] raises [ValueError] and no user
    is stored. *)
Theorem create_superuser_flags (make_password : option string -> string) (db : UserDB)
    (em pw : option string) (uname : string) (staff superuser : option Api.PyValue)
    (active : option bool) :
  ((exists v, staff = Some v /\ v <> Api.PyBool true) \/
   (exists v, superuser = Some v /\ v <> Api.PyBool true) ->
   exists msg, create_superuser make_password db em pw uname staff superuser active =
               Err (ValueError msg)) /\
  (forall (db' : UserDB) (u : CustomUser),
     create_superuser make_password db em pw uname None None active = Ok (db', u) ->
     In u (users db') /\ username u = uname /\ is_staff u = true /\
     is_superuser u = true /\
     is_active u = match active with Some b => b | None => true end) /\
  (forall (db' : UserDB) (u : CustomUser),
     create_user make_password db em pw uname = Ok (db', u) ->
     In u (users db') /\ username u = uname /\ is_staff u = false /\
     is_superuser u = false /\ is_active u = true).
Proof.
  split; [|split].
  - unfold create_superuser.
    intros [[v [-> Hv]]|[v [-> Hv]]].
    + destruct v as [[|]|]; [contradiction|eexists; reflexivity|eexists; reflexivity].
    + destruct staff as [[[|]|]|]; try (eexists; reflexivity);
        (destruct v as [[|]|]; [contradiction|eexists; reflexivity|eexists; reflexivity]).
  - intros db' u H. unfold create_superuser, create_user_with in H. simpl in H.
    destruct em as [[|c rest]|]; try discriminate H.
    apply save_new_user_ok in H. destruct H as [Hu Hus]. subst u.
    rewrite Hus. simpl. repeat split; try reflexivity.
    apply in_or_app. right. left. reflexivity.
  - intros db' u H. unfold create_user, create_user_with in H.
    destruct em as [[|c rest]|]; try discriminate H.
    apply save_new_user_ok in H. destruct H as [Hu Hus]. subst u.
    rewrite Hus. simpl. repeat split; try reflexivity.
    apply in_or_app. right. left. reflexivity.
Qed.

Lemma create_superuser_flags_witness :
  In (mkCustomUser 1 "a@b.org" "root" "h" true true true)
     (users (mkUserDB [mkCustomUser 1 "a@b.org" "root" "h" true true true]
                      [mkUserProfile 1 "member"] 1)) /\
  username (mkCustomUser 1 "a@b.org" "root" "h" true true true) = "root" /\
  is_staff (mkCustomUser 1 "a@b.org" "root" "h" true true true) = true /\
  is_superuser (mkCustomUser 1 "a@b.org" "root" "h" true true true) = true /\
  is_active (mkCustomUser 1 "a@b.org" "root" "h" true true true) =
    match @None bool with Some b => b | None => true end.
Proof.
  apply (proj1 (proj2 (create_superuser_flags (fun _ => "h") (mkUserDB [] [] 0)
    (Some "a@B.org") (Some "pw") "root" None None None))).
  reflexivity.
Defined.

(** X9: a user passes at most one of [is_admin], [is_librarian] and
    [is_member], and the anonymous user passes none. *)
Theorem role_checks_exclusive (db : UserDB) (u : option nat) :
  (if is_admin db u then 1 else 0) + (if is_librarian db u then 1 else 0) +
  (if is_member db u then 1 else 0) <= 1 /\
  is_admin db None = false /\ is_librarian db None = false /\ is_member db None = false.
Proof.
  split; [|repeat split].
  unfold is_admin, is_librarian, is_member, has_role.
  destruct u as [uid|]; [|simpl; lia].
  destruct (profile_of uid (profiles db)) as [|p ps]; [simpl; lia|].
  destruct (String.eqb (role p) "admin") eqn:A;
    [apply String.eqb_eq in A; rewrite A; simpl; lia|].
  destruct (String.eqb (role p) "librarian") eqn:L;
    [apply String.eqb_eq in L; rewrite L; simpl; lia|].
  destruct (String.eqb (role p) "member"); simpl; lia.
Qed.

(** X11: for a library with no books yet, the [books_count] shown by
    [LibraryDetailView] after any sequence of [books.add(...)] calls is
    the number of distinct books added. *)
Theorem books_count_distinct (l : nat) (t : Through) (calls : list (list nat)) :
  books_of l t = [] ->
  books_count l (m2m_add_all l calls t) = List.length (dedup (List.concat calls)).
Proof.
  intro H0. unfold books_count. apply Permutation_length, NoDup_Permutation.
  - apply NoDup_books_of_add_all. rewrite H0. constructor.
  - apply NoDup_dedup.
  - intro b. rewrite In_books_of_add_all, In_dedup, H0. simpl. tauto.
Qed.

Lemma books_count_distinct_witness :
  books_count 3 (m2m_add_all 3 [[5; 6; 5]; [6; 7]] [(4, 5)]) = 3.
Proof.
  exact (books_count_distinct 3 [(4, 5)] [[5; 6; 5]; [6; 7]] eq_refl).
Defined.

(** X12: [create_user] with an email whose normalized form is already
    stored raises [IntegrityError] (the [unique=True] email column), and
    no user is added. *)
Theorem create_user_duplicate_email (make_password : option string -> string)
    (db : UserDB) (e : string) (pw : option string) (uname : string) (v : CustomUser) :
  e <> "" -> In v (users db) -> email v = normalize_email e ->
  create_user make_password db (Some e) pw uname =
    Err (IntegrityError "UNIQUE constraint failed: email") /\
  users_after make_password db (Some e) pw uname = users db.
Proof.
  intros He Hv Hem.
  assert (Hc : create_user make_password db (Some e) pw uname =
               Err (IntegrityError "UNIQUE constraint failed: email")).
  { destruct e as [|c rest]; [contradiction|]. unfold create_user, create_user_with, save_new_user. simpl.
    assert (Hx : existsb (fun w => String.eqb (email w) (normalize_email (String c rest)))
                   (users db) = true).
    { apply existsb_exists. exists v. split; [exact Hv|apply String.eqb_eq; exact Hem]. }
    rewrite Hx. reflexivity. }
  split; [exact Hc|]. unfold users_after. rewrite Hc. reflexivity.
Qed.

Lemma create_user_duplicate_email_witness :
  create_user (fun _ => "h") (mkUserDB [mkCustomUser 1 "ann@ex.org" "ann" "h" false false true] [] 1)
    (Some "ann@EX.ORG") None "ann2" =
    Err (IntegrityError "UNIQUE constraint failed: email") /\
  users_after (fun _ => "h") (mkUserDB [mkCustomUser 1 "ann@ex.org" "ann" "h" false false true] [] 1)
    (Some "ann@EX.ORG") None "ann2" = [mkCustomUser 1 "ann@ex.org" "ann" "h" false false true].
Proof.
  exact (create_user_duplicate_email (fun _ => "h")
    (mkUserDB [mkCustomUser 1 "ann@ex.org" "ann" "h" false false true] [] 1) "ann@EX.ORG" None "ann2"
    (mkCustomUser 1 "ann@ex.org" "ann" "h" false false true) ltac:(discriminate) (or_introl eq_refl) eq_refl).
Defined.

End RelationshipExtra.

Module NormalizeEmailFacts.
Import Api Relationship.

Local Abbreviation L := list_ascii_of_string.

Lemma L_app (a b : string) : L (String.append a b) = L a ++ L b.
Proof. induction a as [|c a IH]; simpl; [reflexivity|rewrite IH; reflexivity]. Qed.

Lemma L_rev (s acc : string) : L (rev_string s acc) = rev (L s) ++ L acc.
Proof.
  revert acc. induction s as [|c s IH]; intro acc; simpl; [reflexivity|].
  rewrite IH. simpl. rewrite <- app_assoc. reflexivity.
Qed.

Lemma L_lstrip (s : string) : L (lstrip s) = drop_spaces (L s).
Proof.
  induction s as [|c s IH]; simpl; [reflexivity|].
  destruct (is_space c); [exact IH|reflexivity].
Qed.

Lemma L_strip (s : string) : L (py_strip s) = rev (drop_spaces (rev (drop_spaces (L s)))).
Proof.
  unfold py_strip. rewrite L_rev, L_lstrip, L_rev, L_lstrip. simpl.
  rewrite !app_nil_r. reflexivity.
Qed.

Lemma L_lower (s : string) : L (py_lower s) = map ascii_lower (L s).
Proof. induction s as [|c s IH]; simpl; [reflexivity|rewrite IH; reflexivity]. Qed.

Lemma L_inj (a b : string) : L a = L b -> a = b.
Proof.
  intro H. rewrite <- (string_of_list_ascii_of_string a), <- (string_of_list_ascii_of_string b).
  rewrite H. reflexivity.
Qed.

Lemma ascii_lower_idem (c : ascii) : ascii_lower (ascii_lower c) = ascii_lower c.
Proof. destruct c as [[] [] [] [] [] [] [] []]; reflexivity. Qed.

Lemma ascii_lower_space (c : ascii) : is_space (ascii_lower c) = is_space c.
Proof. destruct c as [[] [] [] [] [] [] [] []]; reflexivity. Qed.

Lemma ascii_lower_at (c : ascii) : Ascii.eqb (ascii_lower c) "@"%char = Ascii.eqb c "@"%char.
Proof. destruct c as [[] [] [] [] [] [] [] []]; reflexivity. Qed.

Lemma drop_spaces_head (l : list ascii) (c : ascii) (r : list ascii) :
  drop_spaces l = c :: r -> is_space c = false.
Proof.
  induction l as [|d l IH]; simpl; [discriminate|].
  destruct (is_space d) eqn:E; [exact IH|]. intro H. injection H as -> _. exact E.
Qed.

Lemma drop_spaces_suffix (l : list ascii) : exists p, l = p ++ drop_spaces l.
Proof.
  induction l as [|d l [p Hp]]; simpl; [exists []; reflexivity|].
  destruct (is_space d); [exists (d :: p); simpl; rewrite <- Hp; reflexivity|exists []; reflexivity].
Qed.

Lemma drop_spaces_id (l : list ascii) :
  (forall c r, l = c :: r -> is_space c = false) -> drop_spaces l = l.
Proof.
  destruct l as [|c r]; intro H; simpl; [reflexivity|]. rewrite (H c r eq_refl). reflexivity.
Qed.

Lemma strip_trimmed (l : list ascii) : trimmed (rev (drop_spaces (rev (drop_spaces l)))).
Proof.
  set (x := drop_spaces l). set (y := drop_spaces (rev x)).
  split.
  - intros c r H.
    destruct (drop_spaces_suffix (rev x)) as [p Hp]. fold y in Hp.
    assert (Hy : y = rev r ++ [c]).
    { rewrite <- (rev_involutive y), H. reflexivity. }
    rewrite Hy, app_assoc in Hp.
    assert (Hx : x = c :: rev (p ++ rev r)).
    { rewrite <- (rev_involutive x), Hp, rev_app_distr. reflexivity. }
    apply (drop_spaces_head l c (rev (p ++ rev r))). exact Hx.
  - intros c r H. rewrite rev_involutive in H. exact (drop_spaces_head _ c r H).
Qed.

Lemma strip_id (l : list ascii) : trimmed l -> rev (drop_spaces (rev (drop_spaces l))) = l.
Proof.
  intros [Hh Ht]. rewrite (drop_spaces_id l Hh), (drop_spaces_id (rev l) Ht).
  apply rev_involutive.
Qed.

Lemma rsplit_at_none (s : string) : no_at s -> rsplit_at s = None.
Proof.
  unfold no_at. induction s as [|c s IH]; intro H; cbn [rsplit_at]; [reflexivity|].
  simpl in H. rewrite IH by tauto.
  destruct (Ascii.eqb c "@") eqn:E; [apply Ascii.eqb_eq in E; subst; tauto|reflexivity].
Qed.

Lemma rsplit_at_some (s nm dom : string) :
  rsplit_at s = Some (nm, dom) -> s = String.append nm (String "@" dom) /\ no_at dom.
Proof.
  revert nm dom. induction s as [|c s IH]; intros nm dom; cbn [rsplit_at]; [discriminate|].
  destruct (rsplit_at s) as [[nm' dom']|] eqn:E.
  - intro H. injection H as <- <-. destruct (IH nm' dom' eq_refl) as [-> Hd].
    split; [reflexivity|exact Hd].
  - destruct (Ascii.eqb c "@") eqn:Ec; [|discriminate].
    intro H. injection H as <- <-. apply Ascii.eqb_eq in Ec. subst c.
    split; [reflexivity|].
    intro Hin. clear IH.
    induction s as [|d s IHs]; [contradiction|].
    cbn [rsplit_at] in E. simpl in Hin. destruct (rsplit_at s) as [[]|]; [discriminate|].
    destruct (Ascii.eqb d "@") eqn:Ed; [discriminate|].
    destruct Hin as [Hd|Hin]; [subst d; rewrite Ascii.eqb_refl in Ed; discriminate|].
    exact (IHs eq_refl Hin).
Qed.

Lemma rsplit_at_app (nm dom : string) :
  no_at dom -> rsplit_at (String.append nm (String "@" dom)) = Some (nm, dom).
Proof.
  intro Hd. induction nm as [|c nm IH]; cbn [String.append rsplit_at].
  - rewrite (rsplit_at_none dom Hd). reflexivity.
  - rewrite IH. reflexivity.
Qed.

Lemma no_at_lower (s : string) : no_at s -> no_at (py_lower s).
Proof.
  unfold no_at. rewrite L_lower. intros H Hin.
  apply in_map_iff in Hin. destruct Hin as [c [Hc Hin]].
  assert (Ascii.eqb c "@" = true) by (rewrite <- ascii_lower_at, Hc; reflexivity).
  apply Ascii.eqb_eq in H0. subst. contradiction.
Qed.

(** X13: [normalize_email] is idempotent: normalizing an address that
    [create_user] already normalized leaves it unchanged. *)
Theorem normalize_email_idempotent (e : string) :
  normalize_email (normalize_email e) = normalize_email e.
Proof.
  unfold normalize_email at 2 3.
  destruct (rsplit_at (py_strip e)) as [[nm dom]|] eqn:E;
    [|unfold normalize_email; rewrite E; reflexivity].
  destruct (rsplit_at_some _ _ _ E) as [Hs Hd].
  set (r := String.append nm (String "@" (py_lower dom))).
  assert (Htr : trimmed (L r)).
  { pose proof (strip_trimmed (L e)) as [Hh Ht]. rewrite <- L_strip, Hs in Hh, Ht.
    unfold r. rewrite L_app in *. simpl in *. rewrite L_lower. split.
    - intros c q H. destruct (L nm) as [|c0 nm0] eqn:En; simpl in H.
      + injection H as <- _. reflexivity.
      + injection H as <- _. exact (Hh c0 (nm0 ++ "@"%char :: L dom) eq_refl).
    - intros c q H. rewrite rev_app_distr in H, Ht. simpl in H, Ht.
      rewrite <- map_rev in H.
      destruct (rev (L dom)) as [|c0 d0] eqn:Ed; simpl in H, Ht.
      + injection H as <- _. reflexivity.
      + injection H as <- _. rewrite ascii_lower_space.
        exact (Ht c0 _ eq_refl). }
  assert (Hr : py_strip r = r).
  { apply L_inj. rewrite L_strip. apply strip_id, Htr. }
  unfold normalize_email. fold r. rewrite Hr. unfold r.
  rewrite (rsplit_at_app nm (py_lower dom) (no_at_lower dom Hd)).
  f_equal. f_equal. apply L_inj. rewrite !L_lower, map_map.
  apply map_ext. apply ascii_lower_idem.
Qed.

End NormalizeEmailFacts.

Module ApiOptions.
Import Api.

(** X14: for a request that passes content negotiation, OPTIONS is
    answered 200 without changes on [books/] and [books/<pk>/] for anyone
    no authenticator rejected, but on [books/<pk>/update/] and
    [books/<pk>/delete/] the [IsAuthenticated] check runs first, so an
    OPTIONS there from a requester that is not authenticated (including
    one whose credentials an authenticator rejected) is refused with 401 or
    403 and changes nothing. *)
Theorem options_by_endpoint (pg : Pagination) (cy : Z) (k : nat) (r : Request) (db : DB) :
  method r = "OPTIONS" -> content_negotiation r = None ->
  (auth_error r = None ->
     dispatch pg cy BookListCreateView r db = (mkResponse 200 [], db) /\
     dispatch pg cy (BookDetailView k) r db = (mkResponse 200 [], db)) /\
  (authenticated r = false ->
     forall v, In v [BookUpdateView k; BookDeleteView k] ->
     (status (fst (dispatch pg cy v r db)) = 401 \/
      status (fst (dispatch pg cy v r db)) = 403) /\
     snd (dispatch pg cy v r db) = db).
Proof.
  destruct r as [m u ha ah q d acc ae de]. intros Hm Hc. simpl in Hm. subst m.
  split.
  - intros Ha. simpl in Ha. subst ae. unfold dispatch. rewrite Hc.
    split; reflexivity.
  - intros Hu v Hv. unfold authenticated, user_authenticated in Hu. simpl in Hu.
    unfold dispatch. rewrite Hc.
    destruct ae as [e|].
    + split; [|reflexivity]. destruct e, ah; simpl; auto.
    + destruct Hv as [<-|[<-|[]]];
        destruct u as [u|]; simpl in Hu; destruct ha, ah;
        unfold check_permissions, user_authenticated; simpl;
        try rewrite Hu; simpl; auto.
Qed.

Lemma options_by_endpoint_witness :
  status (fst (dispatch NoPagination 2026 (BookUpdateView 1)
    (mkRequest "OPTIONS" None true true [] (mkBookInput None None None) [("*", "*")]
       None None) (mkDB [] [] 0))) = 401 \/
  status (fst (dispatch NoPagination 2026 (BookUpdateView 1)
    (mkRequest "OPTIONS" None true true [] (mkBookInput None None None) [("*", "*")]
       None None) (mkDB [] [] 0))) = 403.
Proof.
  exact (proj1 (proj2 (options_by_endpoint NoPagination 2026 1
    (mkRequest "OPTIONS" None true true [] (mkBookInput None None None) [("*", "*")]
       None None) (mkDB [] [] 0) eq_refl eq_refl) eq_refl (BookUpdateView 1)
    (or_introl eq_refl))).
Defined.

End ApiOptions.
